(** * Renaming of bpch diagnostic names to netCDF diagnostic names

    A shallow embedding of [convert_bpch_names_to_netcdf_names] from
    [gcpy/core.py], with its two literal tables, its per-variable loop
    body and the dictionary [old_to_new] that the loop fills.

    Python dictionaries iterate in insertion order, so the dictionary
    [names] whose keys are scanned by [for key in names] is an
    association list in declaration order; [special_vars] and
    [old_to_new] are only looked up and updated, so they are finite
    maps.  The [print] calls guarded by [verbose] have no effect on any
    value and are left out. *)

From Stdlib Require Import String Ascii Bool Arith Lia.
From stdpp Require Import gmap strings list fin_maps sorting.

(** ** Python string and list primitives used by the function *)

(** [key in s] on strings: [key] occurs somewhere inside [s]. *)
Fixpoint contains (key s : string) : bool :=
  String.prefix key s
  || match s with
     | EmptyString => false
     | String _ s' => contains key s'
     end.

(** [s.split(sep)] for a one-character separator. *)
Fixpoint split (sep : ascii) (s : string) : list string :=
  match s with
  | EmptyString => [EmptyString]
  | String c s' =>
      if Ascii.eqb c sep then EmptyString :: split sep s'
      else match split sep s' with
           | [] => [String c EmptyString]
           | w :: ws => String c w :: ws
           end
  end.

(** [sep.join(l)], the inverse of [split]; used to state what [split]
    returns. *)
Fixpoint join (sep : ascii) (l : list string) : string :=
  match l with
  | [] => EmptyString
  | [w] => w
  | w :: ws => w +:+ String sep (join sep ws)
  end.

(** [s[:-2]]: everything but the last two characters (the empty string
    when [s] has fewer than two). *)
Definition slice_to_minus2 (s : string) : string :=
  String.substring 0 (String.length s - 2) s.

(** [x in l] for a list of strings. *)
Definition in_list (x : string) (l : list string) : bool :=
  existsb (String.eqb x) l.

(** ** Exceptions *)

Inductive exn : Type := NameError | IndexError.

Inductive res (A : Type) : Type :=
| Ok (a : A)
| Raise (e : exn).
Arguments Ok {A} a.
Arguments Raise {A} e.

#[global] Instance res_ret : MRet res := fun A a => Ok a.

#[global] Instance res_bind : MBind res := fun A B k r =>
  match r with
  | Ok a => k a
  | Raise e => Raise e
  end.

#[global] Instance res_fmap : FMap res := fun A B f r =>
  match r with
  | Ok a => Ok (f a)
  | Raise e => Raise e
  end.

(** [l[-1]] *)
Definition last_item (l : list string) : res string :=
  match last l with
  | Some x => Ok x
  | None => Raise IndexError
  end.

(** ** Rules *)

Inductive action : Type := append | replace | skip.

Definition action_eqb (a b : action) : bool :=
  match a, b with
  | append, append | replace, replace | skip, skip => true
  | _, _ => false
  end.

(** One item of the dictionary [names]: key = bpch id,
    value[0] = netcdf id, value[1] = action. *)
Definition rule : Type := string * (string * action).


(** ** The loop over the variables of the data set *)

(** The literal lists tested by the [append] branch. *)
Definition underscore_ids : list string :=
  [ "IJ_AVG_S_"; "RN_DECAY_"; "WETDCV_S_"; "WETDLS_S_"; "BXHGHT_S_"; "DAO_FLDS_";
    "DAO_3D_S_"; "PL_SUL_";   "CV_FLX_S_"; "EW_FLX_S_"; "NS_FLX_S_"; "UP_FLX_S_";
    "MC_FRC_S_"; "JV_MAP_S_" ].

Definition conflict_ids : list string :=
  [ "DAO_FLDS_PS_PBL"; "DAO_FLDS_TROPPRAW" ].

Definition source_ids : list string :=
  [ "BIOBSRCE_"; "BIOFSRCE_"; "BIOGSRCE_"; "ANTHSRCE_" ].

(** What the [if]/[elif] chain of the [append] branch does to [newvar]:
    assign it, leave it as it was (the branch that only prints), or
    [continue] with the next variable. *)
Inductive composed : Type :=
| Assign (s : string)
| Keep
| Next.

Definition compose (oldid newid varstr : string) : composed :=
  if in_list oldid underscore_ids then
    if in_list oldid conflict_ids then Keep
    else Assign (newid +:+ "_" +:+ varstr)
  else if String.eqb oldid "IJ_SOA_S_" then
    Assign (newid +:+ varstr)
  else if contains "DRYD_" oldid then
    Assign (newid +:+ "_" +:+ slice_to_minus2 varstr)
  else if in_list oldid source_ids then
    Assign ("Emis" +:+ varstr +:+ "_" +:+ newid)
  else Next.

(** The variables that live across iterations of the loop: the
    dictionary [old_to_new], and [newvar], which is unbound until its
    first assignment and is never reset. *)
Record env : Type := Env {
  old_to_new : gmap string string;
  newvar : option string
}.

Definition env0 : env := Env ∅ None.

(** [oldid], [newid] and [idaction] after the inner loop; [None] stands
    for the initial [''] of [idaction]. *)
Definition ids : Type := (string * string * option action)%type.

(** Reading [newvar]. *)
Definition read_newvar (st : env) : res string :=
  match newvar st with
  | Some s => Ok s
  | None => Raise NameError
  end.

(** [if newvar in d: newvar = d[newvar]] *)
Definition overwrite (d : gmap string string) (s : string) : string :=
  match d !! s with
  | Some t => t
  | None => s
  end.

Section Engine.

Variable names : list rule.
Variable special_vars : gmap string string.

(** [for key in names: if key in variable_name: ...; break] *)
Fixpoint scan (rules : list rule) (variable_name : string) : ids :=
  match rules with
  | [] => (EmptyString, EmptyString, None)
  | (key, (nid, act)) :: rest =>
      if contains key variable_name then
        match act with
        | skip => (EmptyString, EmptyString, None)
        | _ => (key, nid, Some act)
        end
      else scan rest variable_name
  end.

(** The last three statements of the [append] branch: the lookup in
    [special_vars] and the update of [old_to_new]. *)
Definition finish (variable_name : string) (st : env) : res env :=
  nv ← read_newvar st;
  let nv' := overwrite special_vars nv in
  Ok (Env (<[variable_name := nv']> (old_to_new st)) (Some nv')).

(** The body of the outer loop once the inner loop has run. *)
Definition rewrite (st : env) (m : ids) (variable_name : string) : res env :=
  let '(oldid, newid, idaction) := m in
  if String.eqb oldid "" || String.eqb newid "" || negb (bool_decide (is_Some idaction))
  then Ok st
  else
    match idaction with
    | Some replace =>
        Ok (Env (<[variable_name := newid]> (old_to_new st)) (Some newid))
    | _ =>
        let linearr := split "_" variable_name in
        varstr ← last_item linearr;
        match compose oldid newid varstr with
        | Assign s => finish variable_name (Env (old_to_new st) (Some s))
        | Keep => finish variable_name st
        | Next => Ok st
        end
    end.

Definition body (st : env) (variable_name : string) : res env :=
  rewrite st (scan names variable_name) variable_name.

(** [for variable_name in ds.data_vars: ...] *)
Fixpoint loop (data_vars : list string) (st : env) : res env :=
  match data_vars with
  | [] => Ok st
  | variable_name :: rest => st' ← body st variable_name; loop rest st'
  end.

(** The dictionary handed to [ds.rename]. *)
Definition build (data_vars : list string) : res (gmap string string) :=
  st ← loop data_vars env0; Ok (old_to_new st).

(** [ds.rename] belongs to xarray; the function only passes it
    [old_to_new] and [inplace] and returns what it returns. *)
Section Dataset.
Variable Dataset : Type.
Variable ds_data_vars : Dataset -> list string.
Variable ds_rename : Dataset -> gmap string string -> bool -> res Dataset.

Definition convert_bpch_names_to_netcdf_names
    (ds : Dataset) (inplace : bool) : res Dataset :=
  d ← build (ds_data_vars ds);
  ds_rename ds d inplace.
End Dataset.

End Engine.

(** ** The tables *)

Definition names : list rule :=
  [
    ("IJ_AVG_S_", ("SpeciesConc", append));
    ("OD_MAP_S_OPD1550", ("AODDust550nm_bin1", replace));
    ("OD_MAP_S_OPD2550", ("AODDust550nm_bin2", replace));
    ("OD_MAP_S_OPD3550", ("AODDust550nm_bin3", replace));
    ("OD_MAP_S_OPD4550", ("AODDust550nm_bin4", replace));
    ("OD_MAP_S_OPD5550", ("AODDust550nm_bin5", replace));
    ("OD_MAP_S_OPD6550", ("AODDust550nm_bin6", replace));
    ("OD_MAP_S_OPD7550", ("AODDust550nm_bin7", replace));
    ("OD_MAP_S_OPSO4550", ("AODHyg550nm_SO4", replace));
    ("OD_MAP_S_OPBC550", ("AODHyg550nm_BCPI", replace));
    ("OD_MAP_S_OPOC550", ("AODHyg550nm_OCPI", replace));
    ("OD_MAP_S_OPSSa550", ("AODHyg550nm_SALA", replace));
    ("OD_MAP_S_OPSSc550", ("AODHyg550nm_SALC", replace));
    ("OD_MAP_S_ODSLA", ("AODStratLiquidAer550nm", replace));
    ("ACETSRCE_ACETbg", ("EmisACET_DirectBio", replace));
    ("ACETSRCE_ACETmb", ("EmisACET_MethylBut", replace));
    ("ACETSRCE_ACETmo", ("EmissACET_Monoterp", replace));
    ("ACETSRCE_ACETop", ("EmissACET_Ocean", replace));
    ("ANTHSRCE_", ("Anthro", append));
    ("BC_ANTH_BLKC", ("EmisBC_Anthro", skip));
    ("BC_BIOB_BLKC", ("EmisBC_BioBurn", skip));
    ("BC_BIOF_BLKC", ("EmisBC_Biofuel", skip));
    ("BIOBSRCE_", ("BioBurn", append));
    ("BIOFSRCE_", ("Biofuel", append));
    ("BIOGSRCE_", ("Biogenic", append));
    ("BXHGHT_S_", ("Met", append));
    ("CHEM_L_S_OH", ("OHconcAfterChem", replace));
    ("CHEM_L_S_HO2", ("HO2concAfterChem", replace));
    ("CHEM_L_S_O1D", ("O1DconcAfterChem", replace));
    ("CHEM_L_S_O", ("O3PconcAfterChem", replace));
    ("CO__SRCE_COanth", ("EmisCO_Anthro", skip));
    ("CO__SRCE_CObb", ("EmisCO_BioBurn", skip));
    ("CO__SRCE_CObf", ("EmisCO_Biofuel", skip));
    ("CO__SRCE_COmono", ("EmisCO_Monoterp", replace));
    ("CO__SRCE_COship", ("EmisCO_Ship", replace));
    ("CV_FLUX_", ("CloudConvFlux", append));
    ("DAO_3D_S_", ("Met", append));
    ("DAO_FLDS_PS_PBL", ("Met_PBLH", skip));
    ("DAO_FLDS_", ("Met", append));
    ("DMS_BIOG_DMS", ("EmisDMS_Ocean", replace));
    ("DRYD_FLX_", ("DryDep", append));
    ("DRYD_VEL_", ("DryDepVel", append));
    ("DUST_SRC_", ("TBD", skip));
    ("DUSTSRCE_DST1", ("EmisDST1_Natural", replace));
    ("DUSTSRCE_DST2", ("EmisDST2_Natural", replace));
    ("DUSTSRCE_DST3", ("EmisDST3_Natural", replace));
    ("DUSTSRCE_DST4", ("EmisDST4_Natural", replace));
    ("DXYP_DXYP", ("Met_AREAM2", replace));
    ("ECIL_SRC_", ("TBD", skip));
    ("ECOB_SRC_", ("TBD", skip));
    ("EW_FLX_S_", ("AdvFluxZonal", append));
    ("FJX_FLUX_", ("TBD", skip));
    ("IJ_24H_S_", ("TBD", skip));
    ("IJ_MAX_S_", ("TBD", skip));
    ("IJ_SOA_S_", ("AerMass", append));
    ("INST_MAP_", ("TBD", skip));
    ("ISRPIA_S_ISORPH", ("Chem_PHSAV", replace));
    ("ISRPIA_S_ISORH+", ("Chem_HPLUSSAV", replace));
    ("ISRPIA_S_ISORH2O", ("Chem_WATERSAV", replace));
    ("JV_MAP_S_", ("JNoon", append));
    ("LFLASH_", ("TBD", skip));
    ("NH3_ANTH_NH3", ("EmisNH3_Anthro", skip));
    ("NH3_NATU_NH3", ("EmisNH3_Natural", replace));
    ("NK_EMISS_", ("TBD", skip));
    ("MC_FRC_S_", ("WetLossConvFrac", append));
    ("NO_AC_S_NO", ("EmisNO_Aircraft", replace));
    ("NO_AN_S_NO", ("EmisNO_Anthro", skip));
    ("NO_FERT_NO", ("EmisNO_Fert", replace));
    ("NO_LI_S_NO", ("EmisNO_Lightning", replace));
    ("NO_SOIL_NO", ("EmisNO_Soil", replace));
    ("NS_FLX_S_", ("AdvFluxMerid", append));
    ("OC_ANTH_ORGC", ("EmisOC_Anthro", replace));
    ("OC_LIMO_LIMO", ("TBD", skip));
    ("OC_MTPA_MTPA", ("TBD", skip));
    ("OC_MTPO_MTPO", ("TBD", skip));
    ("OC_SESQ_SESQ", ("TBD", skip));
    ("OCIL_SRC_", ("TBD", skip));
    ("OCOB_SRC_", ("TBD", skip));
    ("OD_MAP_S_OPD", ("Met_OPTD", replace));
    ("OD_MAP_S_CLDTOT", ("Met_CLDF", replace));
    ("OD_MAP_S_OPTD", ("AODDust", replace));
    ("OD_MAP_S_SD", ("AerSurfAreaDust", replace));
    ("OD_MAP_S_HGSO4", ("AerHygroscopicGrowth_SO4", replace));
    ("OD_MAP_S_HGBC", ("AerHygroscopicGrowth_BCPI", replace));
    ("OD_MAP_S_HGOC", ("AerHygroscopicGrowth_OCPI", replace));
    ("OD_MAP_S_HGSSa", ("AerHygroscopicGrowth_SALA", replace));
    ("OD_MAP_S_HGSSc", ("AerHygroscopicGrowth_SALC", replace));
    ("OD_MAP_S_SSO4", ("AerSurfAreaHyg_SO4", replace));
    ("OD_MAP_S_SBC", ("AerSurfAreaHyg_BCPI", replace));
    ("OD_MAP_S_SOC", ("AerSurfAreaHyg_OCPI", replace));
    ("OD_MAP_S_SSSa", ("AerSurfAreaHyg_SALA", replace));
    ("OD_MAP_S_SSSc", ("AerSurfAreaHyg_SALC", replace));
    ("OD_MAP_S_SASLA", ("AerSurfAreaStratLiquid", replace));
    ("OD_MAP_S_NDSLA", ("AerNumDensityStratLiquid", replace));
    ("OD_MAP_S_ODSPA", ("AODPolarStratCloud550nm", replace));
    ("OD_MAP_S_SASPA", ("AerSurfAreaPolarStratCloud", replace));
    ("OD_MAP_S_NDSPA", ("AerNumDensityStratParticulate", replace));
    ("OD_MAP_S_ISOPAOD", ("AODSOAfromAqIsoprene550nm", replace));
    ("OD_MAP_S_AQAVOL", ("AerAqueousVolume", replace));
    ("PBLDEPTH_", ("TBD", skip));
    ("PEDGE_S_PSURF", ("TBD", skip));
    ("PG_SRCE_", ("TBD", skip));
    ("PG_PP_", ("TBD", skip));
    ("PL_BC_S_BLKC", ("ProdBCPIfromBCPO", replace));
    ("PL_OC_S_ORGC", ("ProdOCPIfromOCPO", replace));
    ("PL_OC_S_ASOA", ("Prodfrom", skip));
    ("PL_OC_S_ISOA", ("Prodfrom", skip));
    ("PL_OC_S_TSOA", ("Prodfrom", skip));
    ("PL_SUL_S_SO2dms", ("ProdSO2fromDMSandOH", replace));
    ("PL_SUL_S_SO2no3", ("ProdSO2fromDMSandNO3", replace));
    ("PL_SUL_S_SO2tot", ("ProdSO2fromDMS", replace));
    ("PL_SUL_S_MSAdms", ("ProdMSAfromDMS", replace));
    ("PL_SUL_S_SO4gas", ("ProdSO4fromGasPhase", replace));
    ("PL_SUL_S_SO4h2o2", ("ProdSO4fromH2O2inCloud", replace));
    ("PL_SUL_S_SO4o3s", ("ProdSO4fromO3s", replace));
    ("PL_SUL_S_SO4o3", ("ProdSO4fromO3inCloud", replace));
    ("PL_SUL_S_SO4ss", ("ProdSO4fromO3inSeaSalt", replace));
    ("PL_SUL_S_SO4dust", ("ProdSO4fromOxidationOnDust", replace));
    ("PL_SUL_S_NITdust", ("ProdNITfromHNO3uptakeOnDust", replace));
    ("PL_SUL_S_H2SO4dus", ("ProdSO4fromUptakeOfH2SO4g", replace));
    ("PL_SUL_S_HNO3ss", ("LossHNO3onSeaSalt", replace));
    ("PL_SUL_S_SO4hobr", ("ProdSO4fromHOBrInCloud", replace));
    ("PL_SUL_S_SO4sro3", ("ProdSO4fromSRO3", replace));
    ("PL_SUL_S_SO4srhob", ("ProdSO4fromSRHObr", replace));
    ("PORL_L_S_PCO_CH4", ("ProdCObyCH4", skip));
    ("PORL_L_S_PCO_NMVO", ("ProdCObyNMVOC", skip));
    ("PORL_L_S_PO3", ("Prod_O3", replace));
    ("PORL_L_S_PCO", ("Prod_CO", replace));
    ("PORL_L_S_PSO4", ("Prod_SO4", replace));
    ("PORL_L_S_POx", ("Prod_Ox", replace));
    ("PORL_L_S_LO3", ("Loss_O3", replace));
    ("PORL_L_S_LCO", ("Loss_CO", replace));
    ("PORL_L_S_LOx", ("Loss_Ox", replace));
    ("RADMAP_", ("TBD", skip));
    ("RN_SRCE_Rn", ("EmisRn_Soil", replace));
    ("RN_SRCE_Pb", ("PbFromRnDecay", replace));
    ("RN_SRCE_Be7", ("EmisBe_Cosmic", replace));
    ("RN_DECAY_", ("RadDecay", append));
    ("SALTSRCE_SALA", ("EmisSALA_Natural", replace));
    ("SALTSRCE_SALC", ("EmisSALC_Natural", replace));
    ("SHIP_SSS_", ("TBD", skip));
    ("SO2_AC_S_SO2", ("EmisSO2_Aircraft", replace));
    ("SO2_AN_S_SO2", ("EmisSO2_Anthro", skip));
    ("SO2_EV_S_SO2", ("EmisSO2_EVOL", replace));
    ("SO2_NV_S_SO2", ("EmisSO2_NVOL", replace));
    ("SO2_SHIP_SO2", ("EmisSO2_Ship", replace));
    ("SO4_AN_S_SO4", ("EmisSO4_Anthro", skip));
    ("SO4_BIOF_SO4", ("EmisSO4_Biofuel", replace));
    ("SF_EMIS_", ("TBD", skip));
    ("SS_EMIS_", ("TBD", skip));
    ("THETA_S_THETA", ("Met_THETA", replace));
    ("TIME_TPS_TIMETROP", ("TBD", skip));
    ("TMS_COND_", ("TBD", skip));
    ("TMS_COAG_", ("TBD", skip));
    ("TMS_NUCL_", ("TBD", skip));
    ("TMS_AQOX_", ("TBD", skip));
    ("AERO_FIX_", ("TBD", skip));
    ("TMS_SOA_", ("TBD", skip));
    ("TR_PAUSE_TP_HGHT", ("Met_TropHt", replace));
    ("TR_PAUSE_TP_LEVEL", ("Met_TropLev", replace));
    ("TR_PAUSE_TP_PRESS", ("Met_TROPP", replace));
    ("UP_FLX_S_", ("AdvFluxVert", append));
    ("WETDCV_S_", ("WetLossConv", append));
    ("WETDLS_S_", ("WetLossLS", append));
    ("PG-PP_S_", ("POPS", append));
    ("NH3_BIOB_NH3", ("EmisNH3_BioBurn", skip));
    ("NH3_BIOF_NH3", ("EmisNH3_Biofuel", skip));
    ("NO_BIOB_NO", ("EmisNO_BioBurn", skip));
    ("NO_BIOF_NO", ("EmisNO_Biofuel", skip));
    ("OC_BIOB_ORGC", ("EmisOC_BioBurn", skip));
    ("OC_BIOF_ORGC", ("EmisOC_Biofuel", skip));
    ("OC_BIOG_ORGC", ("EmisOC_Biogenic", skip));
    ("SO2_BIOB_SO2", ("EmisSO2_BioBurn", skip));
    ("SO2_BIOF_SO2", ("EmisSO2_Biofuel", skip))
  ].

Definition special_vars : gmap string string :=
  list_to_map
    [ ("AerMassPM25",   "PM25");
      ("AerMassbiogOA", "TotalBiogenicOA");
      ("AerMasssumOA",  "TotalOA");
      ("AerMasssumOC",  "TotalOC");
      ("AerMassBNO",    "BetaNO");
      ("AerMassOC",     "OC");
      ("Met_AIRNUMDE",  "Met_AIRNUMDEN");
      ("Met_UWND",      "Met_U");
      ("Met_VWND",      "Met_V");
      ("Met_CLDTOP",    "Met_CLDTOPS");
      ("Met_GWET",      "Met_GWETTOP");
      ("Met_PRECON",    "Met_PRECCON");
      ("Met_PREACC",    "Met_PRECTOT");
      ("Met_PBL",       "Met_PBLH") ].

Definition bpch_to_netcdf (data_vars : list string) : res (gmap string string) :=
  build names special_vars data_vars.

(** ** First match, candidate name and final name

    The notions in which the behaviour of the loop is stated: the first
    rule of a table whose key occurs in a variable name, the name the
    [if]/[elif] chain composes for it, and the value that ends up in
    [old_to_new]. *)

Definition matches (variable_name : string) (r : rule) : Prop :=
  contains r.1 variable_name = true.

#[global] Instance matches_dec (variable_name : string) (r : rule) :
  Decision (matches variable_name r).
Proof. unfold matches. apply _. Defined.

(** Position and contents of the first matching rule. *)
Definition first_match (rules : list rule) (variable_name : string)
  : option (nat * rule) :=
  list_find (matches variable_name) rules.

(** What the inner loop leaves in [oldid], [newid], [idaction] when it
    breaks at rule [r]. *)
Definition ids_of (r : rule) : ids :=
  match r with
  | (_, (_, skip)) => (EmptyString, EmptyString, None)
  | (key, (nid, act)) => (key, nid, Some act)
  end.

(** The name produced for [variable_name] by rule [r], before the lookup
    in [special_vars]. *)
Definition candidate (r : rule) (variable_name : string) : option string :=
  match r with
  | (_, (_, skip)) => None
  | (_, (nid, replace)) => Some nid
  | (key, (nid, append)) =>
      match last_item (split "_" variable_name) with
      | Ok varstr =>
          match compose key nid varstr with
          | Assign s => Some s
          | _ => None
          end
      | Raise _ => None
      end
  end.

(** The value recorded for [variable_name] when rule [r] is its first
    match. *)
Definition entry (special_vars : gmap string string) (r : rule)
    (variable_name : string) : option string :=
  if String.eqb r.1 "" || String.eqb r.2.1 "" then None
  else
    match r.2.2 with
    | skip => None
    | replace => Some r.2.1
    | append => overwrite special_vars <$> candidate r variable_name
    end.

Definition final_name (names : list rule) (special_vars : gmap string string)
    (variable_name : string) : option string :=
  match first_match names variable_name with
  | Some (_, r) => entry special_vars r variable_name
  | None => None
  end.

(** The effect of one iteration that records [o] for [variable_name]. *)
Definition commit (variable_name : string) (o : option string) (st : env) : env :=
  match o with
  | Some n => Env (<[variable_name := n]> (old_to_new st)) (Some n)
  | None => st
  end.

(** [renamed_to data_vars v o]: the function gets as far as [ds.rename]
    on a data set with variables [data_vars], and the dictionary it
    passes holds [o] for [v] ([None]: no entry). *)
Definition renamed_to (data_vars : list string) (v : string) (o : option string) : Prop :=
  exists m, bpch_to_netcdf data_vars = Ok m /\ m !! v = o.

(** ** Errors of the other functions of [core.py] *)

Inductive error : Type :=
| ValueError (msg : string)
| KeyError (key : string)
| AssertionError (msg : string)
| Builtin (e : exn).

Inductive outcome (A : Type) : Type :=
| Return (a : A)
| Throw (e : error).
Arguments Return {A} a.
Arguments Throw {A} e.

#[global] Instance outcome_ret : MRet outcome := fun A a => Return a.

#[global] Instance outcome_bind : MBind outcome := fun A B k r =>
  match r with
  | Return a => k a
  | Throw e => Throw e
  end.

(** ** [os.path] on POSIX *)

(** [s.rfind(c)] for one character: the last index of [c], or [-1]. *)
Fixpoint rfind (c : ascii) (s : string) : Z :=
  match s with
  | EmptyString => (-1)%Z
  | String d s' =>
      let r := rfind c s' in
      if (0 <=? r)%Z then (r + 1)%Z
      else if Ascii.eqb d c then 0%Z else (-1)%Z
  end.

(** [s[:n]] and [s[n:]] for [n >= 0]. *)
Fixpoint str_take (n : nat) (s : string) : string :=
  match n, s with
  | S n', String c s' => String c (str_take n' s')
  | _, _ => EmptyString
  end.

Fixpoint str_drop (n : nat) (s : string) : string :=
  match n, s with
  | S n', String _ s' => str_drop n' s'
  | _, _ => s
  end.

(** [s.endswith(c)] for one character. *)
Fixpoint endswith (c : ascii) (s : string) : bool :=
  match s with
  | EmptyString => false
  | String d EmptyString => Ascii.eqb d c
  | String _ s' => endswith c s'
  end.

(** [p[i:i+1] != '.'] *)
Definition not_dot_at (p : string) (i : nat) : bool :=
  match String.get i p with
  | Some c => negb (Ascii.eqb c ".")
  | None => true
  end.

(** [os.path.splitext]: the extension starts at the last dot of the last
    path component, unless that component has only dots before it. *)
Definition splitext (p : string) : string * string :=
  let sepIndex := rfind "/" p in
  let dotIndex := rfind "." p in
  if (sepIndex <? dotIndex)%Z then
    let filenameIndex := Z.to_nat (sepIndex + 1) in
    if existsb (not_dot_at p) (seq filenameIndex (Z.to_nat dotIndex - filenameIndex))
    then (str_take (Z.to_nat dotIndex) p, str_drop (Z.to_nat dotIndex) p)
    else (p, EmptyString)
  else (p, EmptyString).

(** [os.path.join(a, b)] *)
Definition path_join (a b : string) : string :=
  if String.prefix "/" b then b
  else if String.eqb a "" || endswith "/" a then a +:+ b
  else a +:+ "/" +:+ b.

(** ** Opening files *)

Definition unknown_extension (file_extension : string) : error :=
  ValueError ("Found unknown file extension (" +:+ file_extension
              +:+ "); please pass a BPCH or netCDF file with extension 'bpch' or 'nc'.").

Section Openers.

(** The readers of xbpch and xarray, and the keyword arguments handed
    through to them. *)
Variable Dataset : Type.
Variable kwargs : Type.
Variable xbpch_open_bpchdataset : string -> kwargs -> outcome Dataset.
Variable xr_open_dataset : string -> kwargs -> outcome Dataset.
Variable xbpch_open_mfbpchdataset : list string -> kwargs -> outcome Dataset.
Variable xr_open_mfdataset : list string -> kwargs -> outcome Dataset.

Definition open_dataset (filename : string) (kw : kwargs) : outcome Dataset :=
  let '(basename, file_extension) := splitext filename in
  if String.eqb file_extension ".bpch" then xbpch_open_bpchdataset filename kw
  else if String.eqb file_extension ".nc" then xr_open_dataset filename kw
  else Throw (unknown_extension file_extension).

(** [kw] stands for [concat_dim], [compat], [preprocess], [lock] and the
    remaining keyword arguments, all passed on unchanged. *)
Definition open_mfdataset (filenames : list string) (kw : kwargs) : outcome Dataset :=
  match filenames with
  | [] => Throw (ValueError "Must pass a list with at least one filename")
  | test_fn :: _ =>
      let '(basename, file_extension) := splitext test_fn in
      if String.eqb file_extension ".bpch" then xbpch_open_mfbpchdataset filenames kw
      else if String.eqb file_extension ".nc" then xr_open_mfdataset filenames kw
      else Throw (unknown_extension file_extension)
  end.

End Openers.

(** [day] and [time] are the texts that [format] inserts. *)
Definition get_gcc_filepath (outputdir collection day time : string) : string :=
  if String.eqb collection "Emissions" then
    path_join outputdir ("HEMCO_diagnostics." +:+ day +:+ time +:+ ".nc")
  else
    path_join outputdir
      ("GEOSChem." +:+ collection +:+ "." +:+ day +:+ "_" +:+ time +:+ "z.nc4").

(** ** Data sets as the remaining functions use them *)

(** [ds.data_vars] as an ordered list of named items; coordinates and
    dimensions of a data set are not part of it. *)
Definition keys {A : Type} (d : list (string * A)) : list string := d.*1.

(** [ds[v]] for a data variable [v]. *)
Fixpoint getitem {A : Type} (d : list (string * A)) (v : string) : outcome A :=
  match d with
  | [] => Throw (KeyError v)
  | (k, x) :: rest => if String.eqb k v then Return x else getitem rest v
  end.

(** [l[i]] for [i >= 0] *)
Definition item {A : Type} (i : nat) (l : list A) : outcome A :=
  match l !! i with
  | Some x => Return x
  | None => Throw (Builtin IndexError)
  end.

(** [[v for v in l if p(v)]] where evaluating [p(v)] can raise. *)
Fixpoint select (p : string -> outcome bool) (l : list string) : outcome (list string) :=
  match l with
  | [] => Return []
  | v :: rest =>
      b ← p v;
      r ← select p rest;
      Return (if b : bool then v :: r else r)
  end.

(** ** [compare_varnames] *)

(** [sorted(list(set(refvars).intersection(set(devvars))))] *)
Definition commonvars (refvars devvars : list string) : list string :=
  merge_sort String.le
    (elements ((list_to_set refvars : gset string) ∩ list_to_set devvars)).

(** [[v for v in a if v not in b]]: [refonly] and [devonly]. *)
Definition only_in (a b : list string) : list string :=
  List.filter (fun v => negb (in_list v b)) a.

(** [[v for v in commonvars if refdata[v].ndim != devdata[v].ndim]] *)
Definition dimmismatch (refdata devdata : list (string * nat)) : outcome (list string) :=
  select (fun v => r ← getitem refdata v; d ← getitem devdata v;
                   Return (negb (Nat.eqb r d)))
         (commonvars (keys refdata) (keys devdata)).

(** A data set is given by the [ndim] of each of its variables.  The
    lists [refonly], [devonly] and [dimmismatch] are computed and
    printed; the four lists returned are [commonvars] and its three
    buckets. *)
Definition compare_varnames (refdata devdata : list (string * nat))
  : outcome (list (list string)) :=
  let refvars := keys refdata in
  let devvars := keys devdata in
  let cv := commonvars refvars devvars in
  let refonly := only_in refvars devvars in
  let devonly := only_in devvars refvars in
  _ ← dimmismatch refdata devdata;
  commonvars1D ← select (fun v => r ← getitem refdata v; Return (Nat.eqb r 2)) cv;
  commonvars2D ← select (fun v => r ← getitem refdata v; Return (Nat.eqb r 3)) cv;
  commonvars3D ← select (fun v => d ← getitem devdata v; Return (Nat.eqb d 4)) cv;
  Return [cv; commonvars1D; commonvars2D; commonvars3D].

(** ** [add_species_to_dataset] *)

Section AddSpecies.

(** Arrays with the two operations the function uses on them, and
    [xr.merge] applied to the data set and the new array once it has
    its name and units. *)
Variable DataArray : Type.
Variable Coef : Type.
Variable mul : DataArray -> Coef -> DataArray.
Variable add : DataArray -> DataArray -> DataArray.
Variable xr_merge :
  list (string * DataArray) -> string -> string -> DataArray
  -> outcome (list (string * DataArray)).

(** One turn of [for i in range(len(varlist))]. *)
Definition add_term (ds : list (string * DataArray)) (varlist : list (string * Coef))
    (darr : DataArray) (i : nat) : outcome DataArray :=
  if Nat.eqb i 0 then Return darr
  else
    t ← item i varlist;
    a ← getitem ds t.1;
    Return (add darr (mul a t.2)).

Fixpoint add_terms (ds : list (string * DataArray)) (varlist : list (string * Coef))
    (darr : DataArray) (range : list nat) : outcome DataArray :=
  match range with
  | [] => Return darr
  | i :: rest => darr' ← add_term ds varlist darr i; add_terms ds varlist darr' rest
  end.

(** [ds.drop(key)] names a variable [key] that the function never
    binds. *)
Definition add_species_to_dataset (ds : list (string * DataArray)) (varname : string)
    (varlist : list (string * Coef)) (units : string) (overwrite : bool)
  : outcome (list (string * DataArray)) :=
  _ ← (if in_list varname (keys ds) && overwrite then Throw (Builtin NameError)
       else if negb (in_list varname (keys ds)) then Return tt
       else Throw (AssertionError (varname +:+ " already in dataset!")));
  t0 ← item 0 varlist;
  a0 ← getitem ds t0.1;
  darr ← add_terms ds varlist (mul a0 t0.2) (seq 0 (length varlist));
  xr_merge ds varname units darr.

End AddSpecies.

(** The new name of an [IJ_SOA_S_] variable with suffix [x], with the
    six entries of [special_vars] for [AerMass] names written out. *)
Definition soa_name (x : string) : string :=
  if String.eqb x "PM25" then "PM25"
  else if String.eqb x "biogOA" then "TotalBiogenicOA"
  else if String.eqb x "sumOA" then "TotalOA"
  else if String.eqb x "sumOC" then "TotalOC"
  else if String.eqb x "BNO" then "BetaNO"
  else if String.eqb x "OC" then "OC"
  else "AerMass" +:+ x.

(** ** Facts about the string primitives *)

Lemma append_nil (s : string) : EmptyString +:+ s = s.
Proof. reflexivity. Qed.

Lemma append_cons (c : ascii) (s t : string) :
  String c s +:+ t = String c (s +:+ t).
Proof. reflexivity. Qed.

Ltac unfold_append := rewrite ?append_cons, ?append_nil in *.

Lemma prefix_app (k s : string) :
  String.prefix k s = true <-> exists b, s = k +:+ b.
Proof.
  revert s. induction k as [|c k IH]; intros s; simpl.
  - split; [intros _; by exists s | intros _; by destruct s].
  - destruct s as [|d s]; simpl.
    + split; [done | intros [b Hb]; discriminate].
    + destruct (ascii_dec c d) as [->|Hne].
      * rewrite IH. split; intros [b Hb]; exists b; unfold_append; congruence.
      * split; [done | intros [b Hb]; unfold_append; congruence].
Qed.

Lemma contains_nil (key : string) :
  contains key EmptyString = String.prefix key EmptyString.
Proof. unfold contains. apply orb_false_r. Qed.

Lemma contains_cons (key : string) (c : ascii) (s : string) :
  contains key (String c s) = String.prefix key (String c s) || contains key s.
Proof. reflexivity. Qed.

Lemma contains_app (key s : string) :
  contains key s = true <-> exists a b, s = a +:+ key +:+ b.
Proof.
  induction s as [|c s IH].
  - rewrite contains_nil, prefix_app. split.
    + intros [b Hb]. by exists EmptyString, b.
    + intros [a [b Hab]]. destruct a; unfold_append; [by exists b | discriminate].
  - rewrite contains_cons, orb_true_iff, prefix_app, IH. split.
    + intros [[b Hb] | [a [b Hab]]].
      * by exists EmptyString, b.
      * exists (String c a), b. unfold_append. by rewrite Hab.
    + intros [a [b Hab]]. destruct a as [|d a]; unfold_append.
      * left. by exists b.
      * right. exists a, b. congruence.
Qed.

Lemma split_nonempty (sep : ascii) (s : string) : split sep s <> [].
Proof.
  destruct s as [|c s]; simpl; [done |].
  destruct (Ascii.eqb c sep); [done |]. by destruct (split sep s).
Qed.

Lemma join_cons (sep : ascii) (w : string) (ws : list string) :
  ws <> [] -> join sep (w :: ws) = w +:+ String sep (join sep ws).
Proof. by destruct ws. Qed.

Lemma join_split (sep : ascii) (s : string) : join sep (split sep s) = s.
Proof.
  induction s as [|c s IH]; [done |]. simpl.
  pose proof (split_nonempty sep s) as Hne.
  destruct (Ascii.eqb_spec c sep) as [->|_].
  - rewrite join_cons by done. simpl. by rewrite IH.
  - destruct (split sep s) as [|w ws]; [done |].
    rewrite <- IH. destruct ws; [done |]. reflexivity.
Qed.

Lemma contains_char (sep c : ascii) (w : string) :
  contains (String sep EmptyString) (String c w)
  = (if ascii_dec sep c then true else false) || contains (String sep EmptyString) w.
Proof. simpl. destruct (ascii_dec sep c); [by destruct w | done]. Qed.

Lemma split_no_sep (sep : ascii) (s : string) :
  Forall (fun w => contains (String sep EmptyString) w = false) (split sep s).
Proof.
  induction s as [|c s IH]; simpl.
  - by constructor.
  - destruct (Ascii.eqb_spec c sep) as [->|Hne].
    + by constructor.
    + pose proof (split_nonempty sep s) as Hs.
      destruct (split sep s) as [|w ws]; [done |].
      inversion IH as [|? ? Hw Hws]; subst. constructor; [|done].
      rewrite contains_char, Hw. by destruct (ascii_dec sep c) as [->|].
Qed.

Lemma join_last (sep : ascii) (l : list string) (x : string) :
  last l = Some x ->
  join sep l = x \/ exists p, join sep l = p +:+ String sep x.
Proof.
  induction l as [|w ws IH]; [done |].
  destruct ws as [|w' ws]; intros Hl.
  - left. simpl in *. congruence.
  - right. rewrite join_cons by done.
    destruct (IH Hl) as [E|[p E]]; rewrite E.
    + by exists w.
    + exists (w +:+ String sep p). clear.
      induction w as [|c w IHw]; unfold_append; [done | by rewrite IHw].
Qed.

(** [s.split(sep)[-1]] never fails and is the part of [s] after its
    last [sep] (all of [s] when it has none). *)
Lemma last_split (sep : ascii) (s : string) :
  exists x,
    last_item (split sep s) = Ok x
    /\ contains (String sep EmptyString) x = false
    /\ (s = x \/ exists p, s = p +:+ String sep x).
Proof.
  unfold last_item.
  destruct (last (split sep s)) as [x|] eqn:Hl.
  - exists x. split; [done |]. split.
    + pose proof (split_no_sep sep s) as HF.
      rewrite Forall_forall in HF. apply HF.
      by apply last_Some_elem_of.
    + pose proof (join_last sep _ _ Hl) as Hj. by rewrite join_split in Hj.
  - apply last_None in Hl. by destruct (split_nonempty sep s).
Qed.

Lemma length_append (s t : string) :
  String.length (s +:+ t) = String.length s + String.length t.
Proof. induction s as [|c s IH]; unfold_append; simpl; [done | by rewrite IH]. Qed.

Lemma substring_prefix (s t : string) :
  String.substring 0 (String.length s) (s +:+ t) = s.
Proof.
  induction s as [|c s IH]; unfold_append; simpl.
  - by destruct t.
  - by rewrite IH.
Qed.

(** [s[:-2]] removes exactly the last two characters when there are two. *)
Lemma slice_to_minus2_app (s : string) (a b : ascii) :
  slice_to_minus2 (s +:+ String a (String b EmptyString)) = s.
Proof.
  unfold slice_to_minus2. rewrite length_append. simpl.
  replace (String.length s + 2 - 2) with (String.length s) by lia.
  apply substring_prefix.
Qed.

(** ** The loop body does what [final_name] says *)

Lemma in_list_true (x : string) (l : list string) :
  in_list x l = true <-> x ∈ l.
Proof.
  unfold in_list. rewrite existsb_exists. split.
  - intros (y & Hy & Heq). apply String.eqb_eq in Heq. subst.
    by apply list_elem_of_In.
  - intros Hx. exists x. split; [by apply list_elem_of_In | apply String.eqb_refl].
Qed.

(** The branch that only prints is never taken: no element of
    [underscore_ids] is in [conflict_ids]. *)
Lemma compose_not_keep (oldid newid varstr : string) :
  compose oldid newid varstr <> Keep.
Proof.
  unfold compose.
  destruct (in_list oldid underscore_ids) eqn:Hu.
  - apply in_list_true in Hu.
    assert (in_list oldid conflict_ids = false) as ->; [|done].
    unfold underscore_ids in Hu.
    repeat (apply elem_of_cons in Hu as [->|Hu]; [reflexivity |]).
    by apply elem_of_nil in Hu.
  - repeat case_match; done.
Qed.

Section EngineFacts.

Variable names : list rule.
Variable special_vars : gmap string string.

Lemma scan_first_match (rules : list rule) (v : string) :
  scan rules v =
    match first_match rules v with
    | Some (_, r) => ids_of r
    | None => (EmptyString, EmptyString, None)
    end.
Proof.
  unfold first_match.
  induction rules as [|[key [nid act]] rules IH]; [done |].
  cbn [scan list_find]. case_decide as Hm; unfold matches in Hm; simpl in Hm.
  - rewrite Hm. by destruct act.
  - apply not_true_is_false in Hm. rewrite Hm, IH.
    by destruct (list_find (matches v) rules) as [[i r]|].
Qed.

Lemma rewrite_entry (st : env) (r : rule) (v : string) :
  rewrite special_vars st (ids_of r) v = Ok (commit v (entry special_vars r v) st).
Proof.
  destruct r as [key [nid act]]. unfold entry, rewrite. simpl.
  destruct act; simpl.
  - destruct (String.eqb key "" || String.eqb nid ""); simpl; [done |].
    destruct (last_split "_" v) as (x & -> & _). simpl.
    pose proof (compose_not_keep key nid x) as Hk.
    by destruct (compose key nid x).
  - by destruct (String.eqb key "" || String.eqb nid "").
  - by destruct (String.eqb key "" || String.eqb nid "").
Qed.

Lemma body_commit (st : env) (v : string) :
  body names special_vars st v = Ok (commit v (final_name names special_vars v) st).
Proof.
  unfold body, final_name. rewrite scan_first_match.
  destruct (first_match names v) as [[i r]|]; [apply rewrite_entry | done].
Qed.

Lemma commit_lookup (v x : string) (o : option string) (st : env) :
  old_to_new (commit x o st) !! v =
    if decide (x = v) then from_option Some (old_to_new st !! v) o
    else old_to_new st !! v.
Proof.
  destruct o as [n|]; simpl.
  - rewrite lookup_insert. by case_decide.
  - by case_decide; subst.
Qed.

Lemma loop_lookup (data_vars : list string) (st : env) :
  exists st',
    loop names special_vars data_vars st = Ok st'
    /\ forall v,
         old_to_new st' !! v =
           if decide (v ∈ data_vars)
           then from_option Some (old_to_new st !! v) (final_name names special_vars v)
           else old_to_new st !! v.
Proof.
  revert st. induction data_vars as [|x rest IH]; intros st.
  - exists st. split; [done |]. intros v. case_decide as H; [|done].
    by apply elem_of_nil in H.
  - cbn [loop]. rewrite body_commit. simpl.
    destruct (IH (commit x (final_name names special_vars x) st)) as (st' & -> & Hst').
    exists st'. split; [done |]. intros v. rewrite Hst', commit_lookup.
    destruct (decide (v ∈ x :: rest)) as [Hv|Hv]; rewrite elem_of_cons in Hv.
    + destruct (decide (v ∈ rest)) as [Hin|Hin].
      * case_decide; subst; [|done]. by destruct (final_name names special_vars v).
      * destruct Hv as [->|Hv]; [|done]. by rewrite decide_True.
    + rewrite !decide_False; [done | naive_solver..].
Qed.

(** The loop never raises, and the dictionary it builds holds, for
    each variable of the data set, exactly its [final_name]. *)
Lemma build_lookup (data_vars : list string) :
  exists m,
    build names special_vars data_vars = Ok m
    /\ forall v,
         m !! v = if decide (v ∈ data_vars) then final_name names special_vars v
                  else None.
Proof.
  unfold build. destruct (loop_lookup data_vars env0) as (st & -> & Hst).
  exists (old_to_new st). split; [done |]. intros v. rewrite Hst. simpl.
  rewrite lookup_empty. case_decide; [|done].
  by destruct (final_name names special_vars v).
Qed.

End EngineFacts.

(** ** Facts about the two tables *)

Lemma renamed_to_final (data_vars : list string) (v : string) :
  v ∈ data_vars -> renamed_to data_vars v (final_name names special_vars v).
Proof.
  intros Hv. destruct (build_lookup names special_vars data_vars) as (m & Hm & Hl).
  exists m. split; [done |]. by rewrite Hl, decide_True.
Qed.

Lemma renamed_to_none (data_vars : list string) (v : string) :
  final_name names special_vars v = None -> renamed_to data_vars v None.
Proof.
  intros Hv. destruct (build_lookup names special_vars data_vars) as (m & Hm & Hl).
  exists m. split; [done |]. rewrite Hl. by case_decide.
Qed.

Lemma renamed_to_eq (data_vars : list string) (v : string) (o : option string) :
  v ∈ data_vars -> final_name names special_vars v = o -> renamed_to data_vars v o.
Proof. intros Hv <-. by apply renamed_to_final. Qed.

Lemma first_match_lookup (rules : list rule) (v : string) (i : nat) (r : rule) :
  first_match rules v = Some (i, r) ->
  rules !! i = Some r /\ matches v r
  /\ forall j r', rules !! j = Some r' -> j < i -> ~ matches v r'.
Proof. unfold first_match. by rewrite list_find_Some. Qed.

(** Checking a decidable property of every rule by running it over the
    table. *)
Lemma names_all (P : rule -> bool) (i : nat) (r : rule) :
  forallb P names = true -> names !! i = Some r -> P r = true.
Proof.
  intros HP Hr. rewrite forallb_forall in HP. apply HP.
  apply list_elem_of_In. by eapply list_elem_of_lookup_2.
Qed.

Lemma names_nonempty (i : nat) (r : rule) :
  names !! i = Some r ->
  String.eqb r.1 "" || String.eqb r.2.1 "" = false.
Proof.
  intros Hr.
  apply (names_all (fun r => negb (String.eqb r.1 "" || String.eqb r.2.1 "")) i r) in Hr;
    [by apply negb_true_iff in Hr | by vm_compute].
Qed.

Lemma special_vars_keys (s t : string) :
  special_vars !! s = Some t ->
  (s, t) ∈
    [ ("AerMassPM25",   "PM25");
      ("AerMassbiogOA", "TotalBiogenicOA");
      ("AerMasssumOA",  "TotalOA");
      ("AerMasssumOC",  "TotalOC");
      ("AerMassBNO",    "BetaNO");
      ("AerMassOC",     "OC");
      ("Met_AIRNUMDE",  "Met_AIRNUMDEN");
      ("Met_UWND",      "Met_U");
      ("Met_VWND",      "Met_V");
      ("Met_CLDTOP",    "Met_CLDTOPS");
      ("Met_GWET",      "Met_GWETTOP");
      ("Met_PRECON",    "Met_PRECCON");
      ("Met_PREACC",    "Met_PRECTOT");
      ("Met_PBL",       "Met_PBLH") ].
Proof. unfold special_vars. apply elem_of_list_to_map_2. Qed.

(** Every key of [special_vars] starts with [A] or [M]. *)
Lemma special_vars_head (s t : string) :
  special_vars !! s = Some t ->
  exists s', s = String "A" s' \/ s = String "M" s'.
Proof.
  intros H%special_vars_keys.
  repeat (apply elem_of_cons in H as [[= -> ->]|H]; [eauto |]).
  by apply elem_of_nil in H.
Qed.

Lemma overwrite_other_head (c : ascii) (s : string) :
  c <> "A"%char -> c <> "M"%char ->
  overwrite special_vars (String c s) = String c s.
Proof.
  intros HA HM. unfold overwrite.
  destruct (special_vars !! String c s) as [t|] eqn:E; [|done].
  apply special_vars_head in E as [s' [[=]|[=]]]; congruence.
Qed.

(** ** Unmatched and skipped names *)

(** C5: a variable name that matches no key of [names], or whose first
    matching key has action [skip], has no entry in the dictionary that
    is passed to [ds.rename], whatever else the data set holds. *)
Theorem unmatched_or_skipped_has_no_entry (data_vars : list string) (v : string) :
  first_match names v = None
  \/ (exists i key nid, first_match names v = Some (i, (key, (nid, skip)))) ->
  renamed_to data_vars v None.
Proof.
  intros H. apply renamed_to_none. unfold final_name.
  destruct H as [->|(i & key & nid & ->)]; [done |].
  unfold entry. simpl. by destruct (String.eqb key "" || String.eqb nid "").
Qed.

Lemma unmatched_or_skipped_has_no_entry_witness :
  renamed_to ["IJ_AVG_S_O3"; "TEMPERATURE"] "TEMPERATURE" None
  /\ renamed_to ["IJ_AVG_S_O3"; "BC_ANTH_BLKC"] "BC_ANTH_BLKC" None.
Proof.
  split.
  - apply (unmatched_or_skipped_has_no_entry ["IJ_AVG_S_O3"; "TEMPERATURE"] "TEMPERATURE").
    left. vm_compute. reflexivity.
  - apply (unmatched_or_skipped_has_no_entry ["IJ_AVG_S_O3"; "BC_ANTH_BLKC"] "BC_ANTH_BLKC").
    right. exists 19, "BC_ANTH_BLKC", "EmisBC_Anthro". vm_compute. reflexivity.
Defined.

(** ** Append rules without a composition *)

(** C10: the keys [CV_FLUX_] and [PG-PP_S_] are in none of the lists
    tested by the [append] branch (the first list holds [CV_FLX_S_]
    instead), so a variable whose first match is one of these two rules
    reaches the final [else: continue] and gets no entry. *)
Theorem cv_flux_and_pops_are_dropped (data_vars : list string) (v : string) (i : nat) :
  first_match names v = Some (i, ("CV_FLUX_", ("CloudConvFlux", append)))
  \/ first_match names v = Some (i, ("PG-PP_S_", ("POPS", append))) ->
  renamed_to data_vars v None
  /\ (forall newid varstr, compose "CV_FLUX_" newid varstr = Next)
  /\ (forall newid varstr, compose "PG-PP_S_" newid varstr = Next)
  /\ in_list "CV_FLUX_" underscore_ids = false
  /\ in_list "CV_FLX_S_" underscore_ids = true.
Proof.
  intros H. split; [|by repeat split].
  apply renamed_to_none. unfold final_name.
  destruct H as [->| ->]; unfold entry; simpl;
    by destruct (last_split "_" v) as (x & -> & _).
Qed.

Lemma cv_flux_and_pops_are_dropped_witness :
  renamed_to ["CV_FLUX_O3"; "PG-PP_S_POPG"] "CV_FLUX_O3" None
  /\ renamed_to ["CV_FLUX_O3"; "PG-PP_S_POPG"] "PG-PP_S_POPG" None.
Proof.
  split.
  - apply (cv_flux_and_pops_are_dropped ["CV_FLUX_O3"; "PG-PP_S_POPG"] "CV_FLUX_O3" 35).
    left. vm_compute. reflexivity.
  - apply (cv_flux_and_pops_are_dropped ["CV_FLUX_O3"; "PG-PP_S_POPG"] "PG-PP_S_POPG" 164).
    right. vm_compute. reflexivity.
Defined.

(** ** The two fields meant to be skipped inside the append branch *)

(** C3: the test [oldid in ['DAO_FLDS_PS_PBL', 'DAO_FLDS_TROPPRAW']] sits
    under [oldid in [...]] for a list that holds neither string, so the
    branch that skips is never taken.  [DAO_FLDS_PS_PBL] still gets no
    entry, through its own [skip] rule in [names]; [DAO_FLDS_TROPPRAW]
    has no such rule, matches [DAO_FLDS_] and is renamed to
    [Met_TROPPRAW]. *)
Theorem dao_flds_tropp_raw_is_renamed :
  in_list "DAO_FLDS_" underscore_ids = true
  /\ in_list "DAO_FLDS_" conflict_ids = false
  /\ first_match names "DAO_FLDS_PS_PBL"
     = Some (37, ("DAO_FLDS_PS_PBL", ("Met_PBLH", skip)))
  /\ first_match names "DAO_FLDS_TROPPRAW"
     = Some (38, ("DAO_FLDS_", ("Met", append)))
  /\ renamed_to ["DAO_FLDS_PS_PBL"; "DAO_FLDS_TROPPRAW"] "DAO_FLDS_PS_PBL" None
  /\ renamed_to ["DAO_FLDS_PS_PBL"; "DAO_FLDS_TROPPRAW"] "DAO_FLDS_TROPPRAW"
       (Some "Met_TROPPRAW").
Proof.
  do 4 (split; [by vm_compute |]).
  split.
  - apply renamed_to_none. by vm_compute.
  - apply renamed_to_eq; [set_solver | by vm_compute].
Qed.

(** ** The lookup in [special_vars] *)

(** No value of [special_vars] is itself a key. *)
Lemma special_vars_values_fresh (s t : string) :
  special_vars !! s = Some t -> special_vars !! t = None.
Proof.
  intros H%special_vars_keys.
  repeat (apply elem_of_cons in H as [[= -> ->]|H]; [by vm_compute |]).
  by apply elem_of_nil in H.
Qed.

(** C9: looking a name up in [special_vars] twice (replace it by its
    value if it is a key, keep it otherwise) gives the same name as
    looking it up once. *)
Theorem overwrite_idempotent (s : string) :
  overwrite special_vars (overwrite special_vars s) = overwrite special_vars s.
Proof.
  unfold overwrite at 2 3.
  destruct (special_vars !! s) as [t|] eqn:E.
  - unfold overwrite. by rewrite (special_vars_values_fresh s t E).
  - unfold overwrite. by rewrite E.
Qed.






(** ** First match wins *)

(** With the two rules in the other order the same name is renamed
    differently. *)
Lemma rule_order_matters :
  build [("OD_MAP_S_OPD1550", ("AODDust550nm_bin1", replace));
         ("OD_MAP_S_OPD", ("Met_OPTD", replace))] special_vars ["OD_MAP_S_OPD1550"]
  = Ok {[ "OD_MAP_S_OPD1550" := "AODDust550nm_bin1" ]}
  /\ build [("OD_MAP_S_OPD", ("Met_OPTD", replace));
            ("OD_MAP_S_OPD1550", ("AODDust550nm_bin1", replace))] special_vars
       ["OD_MAP_S_OPD1550"]
     = Ok {[ "OD_MAP_S_OPD1550" := "Met_OPTD" ]}.
Proof. split; by vm_compute. Qed.

(** C2: the keys of [names] are tried in declaration order, each as a
    substring of the variable name, and the loop breaks at the first one
    that occurs.  So when the rules at positions [i < j] both match, the
    rule that decides is the matching rule of least position [k], with
    [k <= i < j]: the rest of the loop body runs on that rule's ids, and
    the entry recorded for the name is the one that rule gives. *)
Theorem first_match_wins (v : string) (i j : nat) (ri rj : rule) :
  i < j ->
  names !! i = Some ri -> matches v ri ->
  names !! j = Some rj -> matches v rj ->
  exists k rk,
    first_match names v = Some (k, rk)
    /\ k <= i /\ k < j
    /\ names !! k = Some rk
    /\ (exists a b, v = a +:+ rk.1 +:+ b)
    /\ (forall k' r', k' < k -> names !! k' = Some r' -> ~ matches v r')
    /\ scan names v = ids_of rk
    /\ (forall st, body names special_vars st v = rewrite special_vars st (ids_of rk) v)
    /\ (forall data_vars, v ∈ data_vars ->
          renamed_to data_vars v (entry special_vars rk v)).
Proof.
  intros Hij Hi Hmi Hj Hmj.
  destruct (first_match names v) as [[k rk]|] eqn:Hfm.
  - pose proof (first_match_lookup _ _ _ _ Hfm) as (Hk & Hmk & Hmin).
    assert (k <= i) as Hki.
    { destruct (decide (k <= i)) as [|Hgt]; [done |].
      destruct (Hmin i ri Hi); [lia | done]. }
    exists k, rk. split; [done |]. split; [done |]. split; [lia |].
    split; [done |]. split; [by apply contains_app |].
    split; [intros k' r' Hlt Hr'; by apply (Hmin k' r') |].
    split; [by rewrite scan_first_match, Hfm |].
    split.
    + intros st. unfold body. by rewrite scan_first_match, Hfm.
    + intros data_vars Hv. apply renamed_to_eq; [done |].
      unfold final_name. by rewrite Hfm.
  - unfold first_match in Hfm. rewrite list_find_None, Forall_forall in Hfm.
    destruct (Hfm ri); [by eapply list_elem_of_lookup_2 | done].
Qed.

Lemma first_match_wins_witness :
  exists k rk,
    first_match names "OD_MAP_S_OPD1550" = Some (k, rk)
    /\ k <= 1 /\ k < 78
    /\ names !! k = Some rk
    /\ (exists a b, "OD_MAP_S_OPD1550" = a +:+ rk.1 +:+ b)
    /\ (forall k' r', k' < k -> names !! k' = Some r' -> ~ matches "OD_MAP_S_OPD1550" r')
    /\ scan names "OD_MAP_S_OPD1550" = ids_of rk
    /\ (forall st, body names special_vars st "OD_MAP_S_OPD1550"
                   = rewrite special_vars st (ids_of rk) "OD_MAP_S_OPD1550")
    /\ (forall data_vars, "OD_MAP_S_OPD1550" ∈ data_vars ->
          renamed_to data_vars "OD_MAP_S_OPD1550"
            (entry special_vars rk "OD_MAP_S_OPD1550")).
Proof.
  apply (first_match_wins "OD_MAP_S_OPD1550" 1 78
           ("OD_MAP_S_OPD1550", ("AODDust550nm_bin1", replace))
           ("OD_MAP_S_OPD", ("Met_OPTD", replace))).
  - lia.
  - reflexivity.
  - reflexivity.
  - reflexivity.
  - reflexivity.
Defined.

(** ** Composition of the names of append rules *)

Lemma append_assoc (a b c : string) : (a +:+ b) +:+ c = a +:+ b +:+ c.
Proof. induction a as [|x a IH]; unfold_append; [done | by rewrite IH]. Qed.

Lemma contains_trans (a b c : string) :
  contains a b = true -> contains b c = true -> contains a c = true.
Proof.
  rewrite !contains_app. intros (p & q & ->) (p' & q' & ->).
  exists (p' +:+ p), (q +:+ q'). by rewrite !append_assoc.
Qed.

(** Every key of [names] holds an underscore, so a matched variable name
    has a last underscore. *)
Lemma matched_suffix (v : string) (i : nat) (r : rule) :
  names !! i = Some r -> matches v r ->
  exists varstr,
    last_item (split "_" v) = Ok varstr
    /\ contains "_" varstr = false
    /\ exists p, v = p +:+ "_" +:+ varstr.
Proof.
  intros Hr Hm.
  apply (names_all (fun r => contains "_" r.1)) in Hr; [|by vm_compute].
  pose proof (contains_trans _ _ _ Hr Hm) as Hv.
  destruct (last_split "_" v) as (x & Hx & Hno & [->|Hp]).
  - congruence.
  - by exists x.
Qed.

Lemma renamed_to_inj (data_vars : list string) (v : string) (o o' : option string) :
  renamed_to data_vars v o -> renamed_to data_vars v o' -> o = o'.
Proof. intros (m & Hm & <-) (m' & Hm' & <-). congruence. Qed.

(** C6 as stated does not hold: [DAO_FLDS_UWND] is in a family of the
    first list, its suffix is [UWND], and it is renamed to [Met_U], not to
    [Met_UWND], because [Met_UWND] is a key of [special_vars]. *)
Lemma underscore_family_name_counterexample :
  first_match names "DAO_FLDS_UWND" = Some (38, ("DAO_FLDS_", ("Met", append)))
  /\ in_list "DAO_FLDS_" underscore_ids = true
  /\ last_item (split "_" "DAO_FLDS_UWND") = Ok "UWND"
  /\ renamed_to ["DAO_FLDS_UWND"] "DAO_FLDS_UWND" (Some "Met_U")
  /\ ~ renamed_to ["DAO_FLDS_UWND"] "DAO_FLDS_UWND" (Some ("Met" +:+ "_" +:+ "UWND")).
Proof.
  assert (renamed_to ["DAO_FLDS_UWND"] "DAO_FLDS_UWND" (Some "Met_U")) as H.
  { apply renamed_to_eq; [set_solver | by vm_compute]. }
  do 3 (split; [by vm_compute |]). split; [done |].
  intros H'. by pose proof (renamed_to_inj _ _ _ _ H H').
Qed.

(** C6, amended: for an [append] rule the suffix is the part of the
    variable name after its last underscore; when the rule's key is in
    the first list of the branch, the candidate name is the fragment, an
    underscore and the suffix, and the recorded name is that candidate
    after the lookup in [special_vars] (the candidate itself when it is
    not a key).  [IJ_AVG_S_O3] is renamed to [SpeciesConc_O3]. *)
Theorem underscore_family_name :
  (forall data_vars v i key nid,
      v ∈ data_vars ->
      first_match names v = Some (i, (key, (nid, append))) ->
      in_list key underscore_ids = true ->
      exists varstr,
        last_item (split "_" v) = Ok varstr
        /\ contains "_" varstr = false
        /\ (exists p, v = p +:+ "_" +:+ varstr)
        /\ candidate (key, (nid, append)) v = Some (nid +:+ "_" +:+ varstr)
        /\ renamed_to data_vars v
             (Some (overwrite special_vars (nid +:+ "_" +:+ varstr)))
        /\ (special_vars !! (nid +:+ "_" +:+ varstr) = None ->
            renamed_to data_vars v (Some (nid +:+ "_" +:+ varstr))))
  /\ (forall data_vars,
        "IJ_AVG_S_O3" ∈ data_vars ->
        renamed_to data_vars "IJ_AVG_S_O3" (Some "SpeciesConc_O3")).
Proof.
  split.
  - intros data_vars v i key nid Hv Hfm Hin.
    pose proof (first_match_lookup _ _ _ _ Hfm) as (Hr & Hm & _).
    destruct (matched_suffix v i _ Hr Hm) as (x & Hx & Hno & Hp).
    assert (candidate (key, (nid, append)) v = Some (nid +:+ "_" +:+ x)) as Hc.
    { simpl. rewrite Hx. unfold compose. rewrite Hin.
      pose proof (compose_not_keep key nid x) as Hk. unfold compose in Hk.
      rewrite Hin in Hk. by destruct (in_list key conflict_ids). }
    assert (renamed_to data_vars v
              (Some (overwrite special_vars (nid +:+ "_" +:+ x)))) as Hren.
    { apply renamed_to_eq; [done |]. unfold final_name, entry. rewrite Hfm.
      rewrite (names_nonempty _ _ Hr). cbn [snd]. by rewrite Hc. }
    exists x. do 4 (split; [done |]). split; [done |].
    intros Hnone. unfold overwrite in Hren. by rewrite Hnone in Hren.
  - intros data_vars Hv. apply renamed_to_eq; [done | by vm_compute].
Qed.

Lemma underscore_family_name_witness :
  (exists varstr,
      last_item (split "_" "IJ_AVG_S_O3") = Ok varstr
      /\ contains "_" varstr = false
      /\ (exists p, "IJ_AVG_S_O3" = p +:+ "_" +:+ varstr)
      /\ candidate ("IJ_AVG_S_", ("SpeciesConc", append)) "IJ_AVG_S_O3"
         = Some ("SpeciesConc" +:+ "_" +:+ varstr)
      /\ renamed_to ["IJ_AVG_S_O3"] "IJ_AVG_S_O3"
           (Some (overwrite special_vars ("SpeciesConc" +:+ "_" +:+ varstr)))
      /\ (special_vars !! ("SpeciesConc" +:+ "_" +:+ varstr) = None ->
          renamed_to ["IJ_AVG_S_O3"] "IJ_AVG_S_O3"
            (Some ("SpeciesConc" +:+ "_" +:+ varstr))))
  /\ renamed_to ["IJ_AVG_S_O3"] "IJ_AVG_S_O3" (Some "SpeciesConc_O3").
Proof.
  split.
  - apply (proj1 underscore_family_name ["IJ_AVG_S_O3"] "IJ_AVG_S_O3" 0
             "IJ_AVG_S_" "SpeciesConc").
    + apply elem_of_cons. by left.
    + vm_compute. reflexivity.
    + reflexivity.
  - apply (proj2 underscore_family_name ["IJ_AVG_S_O3"]).
    apply elem_of_cons. by left.
Defined.

(** The only [append] rules of [names] whose key holds [DRYD_]. *)
Lemma dryd_rules (i : nat) (key nid : string) :
  names !! i = Some (key, (nid, append)) ->
  contains "DRYD_" key = true ->
  (key = "DRYD_FLX_" /\ nid = "DryDep") \/ (key = "DRYD_VEL_" /\ nid = "DryDepVel").
Proof.
  intros Hr Hk.
  apply (names_all
           (fun r => implb (action_eqb r.2.2 append && contains "DRYD_" r.1)
                       (String.eqb r.1 "DRYD_FLX_" && String.eqb r.2.1 "DryDep"
                        || String.eqb r.1 "DRYD_VEL_" && String.eqb r.2.1 "DryDepVel")))
    in Hr; [|by vm_compute].
  simpl in Hr. rewrite Hk in Hr. simpl in Hr.
  apply orb_true_iff in Hr as [H|H]; apply andb_true_iff in H as [H1 H2];
    apply String.eqb_eq in H1, H2; auto.
Qed.

(** C7: for the dry deposition rules ([DRYD_FLX_], [DRYD_VEL_]) the
    recorded name is the fragment, an underscore, and the suffix without
    its last two characters.  [DRYD_VEL_O3xx] is renamed to
    [DryDepVel_O3]. *)
Theorem dry_deposition_name :
  (forall data_vars v i key nid,
      v ∈ data_vars ->
      first_match names v = Some (i, (key, (nid, append))) ->
      contains "DRYD_" key = true ->
      exists varstr,
        last_item (split "_" v) = Ok varstr
        /\ contains "_" varstr = false
        /\ (exists p, v = p +:+ "_" +:+ varstr)
        /\ candidate (key, (nid, append)) v
           = Some (nid +:+ "_" +:+ slice_to_minus2 varstr)
        /\ renamed_to data_vars v
             (Some (nid +:+ "_" +:+ slice_to_minus2 varstr)))
  /\ (forall s a b, slice_to_minus2 (s +:+ String a (String b EmptyString)) = s)
  /\ (forall data_vars,
        "DRYD_VEL_O3xx" ∈ data_vars ->
        renamed_to data_vars "DRYD_VEL_O3xx" (Some "DryDepVel_O3")).
Proof.
  split; [|split].
  - intros data_vars v i key nid Hv Hfm Hk.
    pose proof (first_match_lookup _ _ _ _ Hfm) as (Hr & Hm & _).
    destruct (matched_suffix v i _ Hr Hm) as (x & Hx & Hno & Hp).
    exists x. do 3 (split; [done |]).
    assert (candidate (key, (nid, append)) v
            = Some (nid +:+ "_" +:+ slice_to_minus2 x)) as Hc.
    { simpl. rewrite Hx.
      by destruct (dryd_rules i key nid Hr Hk) as [[-> ->]|[-> ->]]. }
    split; [done |].
    apply renamed_to_eq; [done |]. unfold final_name, entry. rewrite Hfm.
    rewrite (names_nonempty _ _ Hr). cbn [snd]. rewrite Hc.
    destruct (dryd_rules i key nid Hr Hk) as [[-> ->]|[-> ->]].
    + change (Some (overwrite special_vars
                      (String "D" ("ryDep" +:+ "_" +:+ slice_to_minus2 x)))
              = Some (String "D" ("ryDep" +:+ "_" +:+ slice_to_minus2 x))).
      by rewrite overwrite_other_head.
    + change (Some (overwrite special_vars
                      (String "D" ("ryDepVel" +:+ "_" +:+ slice_to_minus2 x)))
              = Some (String "D" ("ryDepVel" +:+ "_" +:+ slice_to_minus2 x))).
      by rewrite overwrite_other_head.
  - apply slice_to_minus2_app.
  - intros data_vars Hv. apply renamed_to_eq; [done | by vm_compute].
Qed.

Lemma dry_deposition_name_witness :
  (exists varstr,
      last_item (split "_" "DRYD_VEL_O3xx") = Ok varstr
      /\ contains "_" varstr = false
      /\ (exists p, "DRYD_VEL_O3xx" = p +:+ "_" +:+ varstr)
      /\ candidate ("DRYD_VEL_", ("DryDepVel", append)) "DRYD_VEL_O3xx"
         = Some ("DryDepVel" +:+ "_" +:+ slice_to_minus2 varstr)
      /\ renamed_to ["DRYD_VEL_O3xx"] "DRYD_VEL_O3xx"
           (Some ("DryDepVel" +:+ "_" +:+ slice_to_minus2 varstr)))
  /\ renamed_to ["DRYD_VEL_O3xx"] "DRYD_VEL_O3xx" (Some "DryDepVel_O3").
Proof.
  split.
  - apply (proj1 dry_deposition_name ["DRYD_VEL_O3xx"] "DRYD_VEL_O3xx" 41
             "DRYD_VEL_" "DryDepVel").
    + apply elem_of_cons. by left.
    + vm_compute. reflexivity.
    + reflexivity.
  - apply (proj2 (proj2 dry_deposition_name) ["DRYD_VEL_O3xx"]).
    apply elem_of_cons. by left.
Defined.

(** C8: for the source rules ([BIOBSRCE_], [BIOFSRCE_], [BIOGSRCE_],
    [ANTHSRCE_]) the recorded name is [Emis], the suffix, an underscore
    and the fragment.  [BIOGSRCE_ISOP] is renamed to
    [EmisISOP_Biogenic]. *)
Theorem source_family_name :
  (forall data_vars v i key nid,
      v ∈ data_vars ->
      first_match names v = Some (i, (key, (nid, append))) ->
      in_list key source_ids = true ->
      exists varstr,
        last_item (split "_" v) = Ok varstr
        /\ contains "_" varstr = false
        /\ (exists p, v = p +:+ "_" +:+ varstr)
        /\ candidate (key, (nid, append)) v
           = Some ("Emis" +:+ varstr +:+ "_" +:+ nid)
        /\ renamed_to data_vars v (Some ("Emis" +:+ varstr +:+ "_" +:+ nid)))
  /\ (forall data_vars,
        "BIOGSRCE_ISOP" ∈ data_vars ->
        renamed_to data_vars "BIOGSRCE_ISOP" (Some "EmisISOP_Biogenic")).
Proof.
  split.
  - intros data_vars v i key nid Hv Hfm Hk.
    pose proof (first_match_lookup _ _ _ _ Hfm) as (Hr & Hm & _).
    destruct (matched_suffix v i _ Hr Hm) as (x & Hx & Hno & Hp).
    exists x. do 3 (split; [done |]).
    assert (candidate (key, (nid, append)) v
            = Some ("Emis" +:+ x +:+ "_" +:+ nid)) as Hc.
    { simpl. rewrite Hx. apply in_list_true in Hk. unfold source_ids in Hk.
      repeat (apply elem_of_cons in Hk as [->|Hk]; [reflexivity |]).
      by apply elem_of_nil in Hk. }
    split; [done |].
    apply renamed_to_eq; [done |]. unfold final_name, entry. rewrite Hfm.
    rewrite (names_nonempty _ _ Hr). cbn [snd]. rewrite Hc.
    change (Some (overwrite special_vars (String "E" ("mis" +:+ x +:+ "_" +:+ nid)))
            = Some (String "E" ("mis" +:+ x +:+ "_" +:+ nid))).
    by rewrite overwrite_other_head.
  - intros data_vars Hv. apply renamed_to_eq; [done | by vm_compute].
Qed.

Lemma source_family_name_witness :
  (exists varstr,
      last_item (split "_" "BIOGSRCE_ISOP") = Ok varstr
      /\ contains "_" varstr = false
      /\ (exists p, "BIOGSRCE_ISOP" = p +:+ "_" +:+ varstr)
      /\ candidate ("BIOGSRCE_", ("Biogenic", append)) "BIOGSRCE_ISOP"
         = Some ("Emis" +:+ varstr +:+ "_" +:+ "Biogenic")
      /\ renamed_to ["BIOGSRCE_ISOP"] "BIOGSRCE_ISOP"
           (Some ("Emis" +:+ varstr +:+ "_" +:+ "Biogenic")))
  /\ renamed_to ["BIOGSRCE_ISOP"] "BIOGSRCE_ISOP" (Some "EmisISOP_Biogenic").
Proof.
  split.
  - apply (proj1 source_family_name ["BIOGSRCE_ISOP"] "BIOGSRCE_ISOP" 24
             "BIOGSRCE_" "Biogenic").
    + apply elem_of_cons. by left.
    + vm_compute. reflexivity.
    + reflexivity.
  - apply (proj2 source_family_name ["BIOGSRCE_ISOP"]).
    apply elem_of_cons. by left.
Defined.

(** ** What reaches [ds.rename] *)

(** The function always gets as far as [ds.rename], and its result is
    whatever [ds.rename] returns on [old_to_new]: it makes no check of
    its own on the dictionary. *)
Lemma convert_delegates_to_rename
    (Dataset : Type) (ds_data_vars : Dataset -> list string)
    (ds_rename : Dataset -> gmap string string -> bool -> res Dataset)
    (ds : Dataset) (inplace : bool) :
  exists m,
    bpch_to_netcdf (ds_data_vars ds) = Ok m
    /\ convert_bpch_names_to_netcdf_names names special_vars
         Dataset ds_data_vars ds_rename ds inplace
       = ds_rename ds m inplace.
Proof.
  unfold convert_bpch_names_to_netcdf_names, bpch_to_netcdf.
  destruct (build_lookup names special_vars (ds_data_vars ds)) as (m & -> & _).
  by exists m.
Qed.

(** Two variables of one data set can be given the same new name; both
    entries are in the dictionary handed to [ds.rename]. *)
Lemma same_target_for_two_variables :
  bpch_to_netcdf ["BXHGHT_S_AD"; "DAO_3D_S_AD"]
  = Ok {[ "BXHGHT_S_AD" := "Met_AD"; "DAO_3D_S_AD" := "Met_AD" ]}.
Proof. by vm_compute. Qed.

(** ** Further properties of the renaming dictionary *)

Lemma bpch_lookup (data_vars : list string) (m : gmap string string) (v : string) :
  bpch_to_netcdf data_vars = Ok m ->
  m !! v = if decide (v ∈ data_vars) then final_name names special_vars v else None.
Proof.
  intros Hm. destruct (build_lookup names special_vars data_vars) as (m' & Hm' & Hl).
  unfold bpch_to_netcdf in Hm. rewrite Hm' in Hm. injection Hm as <-. apply Hl.
Qed.

(** X1: on every data set the loop runs to its end without raising, and
    each key of the dictionary it builds is a variable of the data set. *)
Theorem old_to_new_keys_are_data_vars (data_vars : list string) :
  exists m,
    bpch_to_netcdf data_vars = Ok m
    /\ forall v, is_Some (m !! v) -> v ∈ data_vars.
Proof.
  destruct (build_lookup names special_vars data_vars) as (m & Hm & Hl).
  exists m. split; [done |]. intros v [n Hn]. rewrite Hl in Hn.
  by case_decide.
Qed.

(** X2: the dictionary depends only on which names the data set holds,
    not on their order or on repetitions: the name left in [newvar] by an
    earlier variable never reaches a later one. *)
Theorem old_to_new_independent_of_order (l1 l2 : list string) :
  (forall v, v ∈ l1 <-> v ∈ l2) ->
  bpch_to_netcdf l1 = bpch_to_netcdf l2.
Proof.
  intros Hl.
  destruct (build_lookup names special_vars l1) as (m1 & Hm1 & H1).
  destruct (build_lookup names special_vars l2) as (m2 & Hm2 & H2).
  unfold bpch_to_netcdf. rewrite Hm1, Hm2. f_equal. apply map_eq. intros v.
  rewrite H1, H2. destruct (decide (v ∈ l1)) as [Hv|Hv].
  - by rewrite decide_True by (by apply Hl).
  - rewrite decide_False; [done |]. intros Hv'. by apply Hv, Hl.
Qed.

Lemma old_to_new_independent_of_order_witness :
  bpch_to_netcdf ["IJ_AVG_S_O3"; "DAO_FLDS_UWND"]
  = bpch_to_netcdf ["DAO_FLDS_UWND"; "IJ_AVG_S_O3"; "DAO_FLDS_UWND"].
Proof.
  apply (old_to_new_independent_of_order
           ["IJ_AVG_S_O3"; "DAO_FLDS_UWND"]
           ["DAO_FLDS_UWND"; "IJ_AVG_S_O3"; "DAO_FLDS_UWND"]).
  intros v. rewrite !elem_of_cons, !elem_of_nil. tauto.
Defined.

Lemma append_nonempty (a b : string) : a <> EmptyString -> a +:+ b <> EmptyString.
Proof. by destruct a. Qed.

Lemma overwrite_nonempty (s : string) :
  s <> EmptyString -> overwrite special_vars s <> EmptyString.
Proof.
  intros Hs. unfold overwrite.
  destruct (special_vars !! s) as [t|] eqn:E; [|done].
  apply special_vars_keys in E.
  repeat (apply elem_of_cons in E as [[= -> ->]|E]; [done |]).
  by apply elem_of_nil in E.
Qed.

Lemma final_name_nonempty (v n : string) :
  final_name names special_vars v = Some n -> n <> EmptyString.
Proof.
  unfold final_name.
  destruct (first_match names v) as [[i [key [nid act]]]|] eqn:Hfm; [|done].
  apply first_match_lookup in Hfm as (Hr & _).
  pose proof (names_nonempty _ _ Hr) as Hne. unfold entry. rewrite Hne.
  apply orb_false_iff in Hne as [_ Hnid]. apply String.eqb_neq in Hnid.
  simpl in *. destruct act; [|by intros [= <-] |done].
  destruct (last_item (split "_" v)) as [x|]; [|done].
  destruct (compose key nid x) as [s| |] eqn:Hc; simpl; [|done..].
  intros [= <-]. apply overwrite_nonempty.
  unfold compose in Hc. repeat case_match; simplify_eq; by apply append_nonempty.
Qed.

(** X3: no variable is ever renamed to the empty string. *)
Theorem new_names_are_nonempty (data_vars : list string) (m : gmap string string)
    (v n : string) :
  bpch_to_netcdf data_vars = Ok m -> m !! v = Some n -> n <> EmptyString.
Proof.
  intros Hm Hn. rewrite (bpch_lookup _ _ v Hm) in Hn.
  case_decide; [|done]. by eapply final_name_nonempty.
Qed.

Lemma new_names_are_nonempty_witness :
  bpch_to_netcdf ["DRYD_VEL_"] = Ok {[ "DRYD_VEL_" := "DryDepVel_" ]}
  /\ "DryDepVel_" <> EmptyString.
Proof.
  assert (bpch_to_netcdf ["DRYD_VEL_"] = Ok {[ "DRYD_VEL_" := "DryDepVel_" ]}) as H
    by (vm_compute; reflexivity).
  split; [exact H |].
  apply (new_names_are_nonempty ["DRYD_VEL_"] {[ "DRYD_VEL_" := "DryDepVel_" ]}
           "DRYD_VEL_" "DryDepVel_" H).
  vm_compute. reflexivity.
Defined.

(** The names of the [AerMass] family after the lookup: six of them
    are keys of [special_vars]. *)
Lemma soa_overwrite (x : string) :
  overwrite special_vars ("AerMass" +:+ x) = soa_name x.
Proof.
  unfold soa_name.
  destruct (String.eqb_spec x "PM25") as [->|H1]; [by vm_compute |].
  destruct (String.eqb_spec x "biogOA") as [->|H2]; [by vm_compute |].
  destruct (String.eqb_spec x "sumOA") as [->|H3]; [by vm_compute |].
  destruct (String.eqb_spec x "sumOC") as [->|H4]; [by vm_compute |].
  destruct (String.eqb_spec x "BNO") as [->|H5]; [by vm_compute |].
  destruct (String.eqb_spec x "OC") as [->|H6]; [by vm_compute |].
  unfold overwrite.
  destruct (special_vars !! ("AerMass" +:+ x)) as [t|] eqn:E; [|done].
  apply special_vars_keys in E. exfalso.
  repeat (apply elem_of_cons in E as [E|E];
          [unfold_append; injection E as E _; congruence || discriminate |]).
  by apply elem_of_nil in E.
Qed.

(** X4: for the rule [IJ_SOA_S_] the fragment [AerMass] and the suffix
    are joined without a separator, and the joined name then goes through
    the lookup in [special_vars]: the suffixes [PM25], [biogOA], [sumOA],
    [sumOC], [BNO] and [OC] are recorded as [PM25], [TotalBiogenicOA],
    [TotalOA], [TotalOC], [BetaNO] and [OC], every other suffix as
    [AerMass] followed by the suffix. *)
Theorem soa_family_name (data_vars : list string) (v : string) (i : nat) (nid : string) :
  v ∈ data_vars ->
  first_match names v = Some (i, ("IJ_SOA_S_", (nid, append))) ->
  exists varstr,
    last_item (split "_" v) = Ok varstr
    /\ (exists p, v = p +:+ "_" +:+ varstr)
    /\ nid = "AerMass"
    /\ candidate ("IJ_SOA_S_", (nid, append)) v = Some ("AerMass" +:+ varstr)
    /\ renamed_to data_vars v
         (Some (if String.eqb varstr "PM25" then "PM25"
                else if String.eqb varstr "biogOA" then "TotalBiogenicOA"
                else if String.eqb varstr "sumOA" then "TotalOA"
                else if String.eqb varstr "sumOC" then "TotalOC"
                else if String.eqb varstr "BNO" then "BetaNO"
                else if String.eqb varstr "OC" then "OC"
                else "AerMass" +:+ varstr)).
Proof.
  intros Hv Hfm.
  pose proof (first_match_lookup _ _ _ _ Hfm) as (Hr & Hm & _).
  destruct (matched_suffix v i _ Hr Hm) as (x & Hx & Hno & Hp).
  assert (nid = "AerMass") as ->.
  { apply (names_all
             (fun r => implb (String.eqb r.1 "IJ_SOA_S_") (String.eqb r.2.1 "AerMass")))
      in Hr; [by apply String.eqb_eq in Hr | by vm_compute]. }
  exists x. do 3 (split; [done |]).
  assert (candidate ("IJ_SOA_S_", ("AerMass", append)) v = Some ("AerMass" +:+ x)) as Hc
    by (simpl; by rewrite Hx).
  split; [done |].
  apply renamed_to_eq; [done |]. unfold final_name. rewrite Hfm.
  unfold entry. cbn [fst snd]. rewrite Hc.
  change (Some (overwrite special_vars ("AerMass" +:+ x)) = Some (soa_name x)).
  by rewrite soa_overwrite.
Qed.

Lemma soa_family_name_witness :
  renamed_to ["IJ_SOA_S_PM25"; "IJ_SOA_S_TSOA"] "IJ_SOA_S_PM25" (Some "PM25")
  /\ renamed_to ["IJ_SOA_S_PM25"; "IJ_SOA_S_TSOA"] "IJ_SOA_S_TSOA" (Some "AerMassTSOA").
Proof.
  split.
  - destruct (soa_family_name ["IJ_SOA_S_PM25"; "IJ_SOA_S_TSOA"] "IJ_SOA_S_PM25"
                54 "AerMass") as (x & Hx & _ & _ & _ & H).
    + apply elem_of_cons. by left.
    + vm_compute. reflexivity.
    + vm_compute in Hx. injection Hx as <-. exact H.
  - destruct (soa_family_name ["IJ_SOA_S_PM25"; "IJ_SOA_S_TSOA"] "IJ_SOA_S_TSOA"
                54 "AerMass") as (x & Hx & _ & _ & _ & H).
    + apply elem_of_cons. right. apply elem_of_cons. by left.
    + vm_compute. reflexivity.
    + vm_compute in Hx. injection Hx as <-. exact H.
Defined.

Lemma slice_to_minus2_short (s : string) :
  String.length s <= 2 -> slice_to_minus2 s = EmptyString.
Proof.
  intros Hs. unfold slice_to_minus2.
  replace (String.length s - 2) with 0 by lia. by destruct s.
Qed.

Lemma dryd_final_name (v : string) (i : nat) (key nid varstr : string) :
  first_match names v = Some (i, (key, (nid, append))) ->
  contains "DRYD_" key = true ->
  last_item (split "_" v) = Ok varstr ->
  final_name names special_vars v = Some (nid +:+ "_" +:+ slice_to_minus2 varstr).
Proof.
  intros Hfm Hk Hx.
  pose proof (first_match_lookup _ _ _ _ Hfm) as (Hr & _).
  unfold final_name, entry. rewrite Hfm, (names_nonempty _ _ Hr). cbn [snd].
  unfold candidate. rewrite Hx.
  destruct (dryd_rules i key nid Hr Hk) as [[-> ->]|[-> ->]].
  - change (Some (overwrite special_vars
                    (String "D" ("ryDep" +:+ "_" +:+ slice_to_minus2 varstr)))
            = Some (String "D" ("ryDep" +:+ "_" +:+ slice_to_minus2 varstr))).
    by rewrite overwrite_other_head.
  - change (Some (overwrite special_vars
                    (String "D" ("ryDepVel" +:+ "_" +:+ slice_to_minus2 varstr)))
            = Some (String "D" ("ryDepVel" +:+ "_" +:+ slice_to_minus2 varstr))).
    by rewrite overwrite_other_head.
Qed.

(** X5: a dry deposition variable whose suffix has at most two characters
    loses the whole suffix: it is renamed to the fragment followed by a
    bare underscore, so two such variables of one rule get the same new
    name. *)
Theorem dry_deposition_short_suffix
    (data_vars : list string) (v : string) (i : nat) (key nid varstr : string) :
  v ∈ data_vars ->
  first_match names v = Some (i, (key, (nid, append))) ->
  contains "DRYD_" key = true ->
  last_item (split "_" v) = Ok varstr ->
  String.length varstr <= 2 ->
  renamed_to data_vars v (Some (nid +:+ "_")).
Proof.
  intros Hv Hfm Hk Hx Hlen. apply renamed_to_eq; [done |].
  rewrite (dryd_final_name v i key nid varstr Hfm Hk Hx).
  by rewrite (slice_to_minus2_short _ Hlen).
Qed.

Lemma dry_deposition_short_suffix_witness :
  renamed_to ["DRYD_VEL_O3"; "DRYD_VEL_NO"] "DRYD_VEL_O3" (Some "DryDepVel_")
  /\ renamed_to ["DRYD_VEL_O3"; "DRYD_VEL_NO"] "DRYD_VEL_NO" (Some "DryDepVel_").
Proof.
  split.
  - apply (dry_deposition_short_suffix ["DRYD_VEL_O3"; "DRYD_VEL_NO"] "DRYD_VEL_O3"
             41 "DRYD_VEL_" "DryDepVel" "O3").
    + apply elem_of_cons. by left.
    + vm_compute. reflexivity.
    + reflexivity.
    + reflexivity.
    + simpl. lia.
  - apply (dry_deposition_short_suffix ["DRYD_VEL_O3"; "DRYD_VEL_NO"] "DRYD_VEL_NO"
             41 "DRYD_VEL_" "DryDepVel" "NO").
    + apply elem_of_cons. right. apply elem_of_cons. by left.
    + vm_compute. reflexivity.
    + reflexivity.
    + reflexivity.
    + simpl. lia.
Defined.

(** ** Facts about [rfind], slices and [splitext] *)

Lemma rfind_bounds (c : ascii) (s : string) :
  (-1 <= rfind c s < Z.of_nat (String.length s))%Z.
Proof.
  induction s as [|d s IH]; simpl rfind; simpl String.length; [lia |].
  destruct (Z.leb_spec 0 (rfind c s)); [lia |].
  destruct (Ascii.eqb d c); lia.
Qed.

Lemma rfind_absent (c : ascii) (s : string) :
  contains (String c EmptyString) s = false -> rfind c s = (-1)%Z.
Proof.
  induction s as [|d s IH]; [done |].
  rewrite contains_char. intros H. apply orb_false_iff in H as [Hd Hs].
  simpl. rewrite (IH Hs). simpl.
  destruct (Ascii.eqb_spec d c) as [->|]; [|done].
  by destruct (ascii_dec c c).
Qed.

Lemma rfind_app_r (c : ascii) (s t : string) :
  (0 <= rfind c t)%Z ->
  rfind c (s +:+ t) = (Z.of_nat (String.length s) + rfind c t)%Z.
Proof.
  intros Ht. induction s as [|d s IH]; unfold_append; [simpl; lia |].
  simpl rfind. rewrite IH. simpl String.length.
  destruct (Z.leb_spec 0 (Z.of_nat (String.length s) + rfind c t)); lia.
Qed.

Lemma rfind_app_l (c : ascii) (s t : string) :
  rfind c t = (-1)%Z -> rfind c (s +:+ t) = rfind c s.
Proof.
  intros Ht. induction s as [|d s IH]; unfold_append; [done |].
  simpl. by rewrite IH.
Qed.

Lemma contains_char_app (c : ascii) (s t : string) :
  contains (String c EmptyString) (s +:+ t)
  = contains (String c EmptyString) s || contains (String c EmptyString) t.
Proof.
  induction s as [|d s IH]; unfold_append; [done |].
  rewrite !contains_char, IH. by rewrite orb_assoc.
Qed.

Lemma get_app_length (a : string) (c : ascii) (m : string) :
  String.get (String.length a) (a +:+ String c m) = Some c.
Proof. induction a as [|d a IH]; unfold_append; [done | exact IH]. Qed.

Lemma str_take_app (a b : string) : str_take (String.length a) (a +:+ b) = a.
Proof.
  induction a as [|d a IH]; unfold_append; simpl; [by destruct b | by rewrite IH].
Qed.

Lemma str_drop_app (a b : string) : str_drop (String.length a) (a +:+ b) = b.
Proof. induction a as [|d a IH]; unfold_append; simpl; [by destruct b | done]. Qed.

(** The extension of [a c m . ext], where [c] is an ordinary character
    of the last path component and [ext] holds no dot or slash. *)
Lemma splitext_ext (a : string) (c : ascii) (m ext : string) :
  c <> "."%char -> c <> "/"%char ->
  contains "/" m = false ->
  contains "/" ext = false ->
  contains "." ext = false ->
  splitext (a +:+ String c m +:+ "." +:+ ext)
  = (a +:+ String c m, "." +:+ ext).
Proof.
  intros Hdot Hsep Hm Hext Hext'.
  set (stem := a +:+ String c m).
  assert (a +:+ String c m +:+ "." +:+ ext = stem +:+ String "." ext) as Hp.
  { unfold stem. by rewrite append_assoc. }
  rewrite Hp. clear Hp.
  assert (rfind "." (stem +:+ String "." ext) = Z.of_nat (String.length stem)) as Hd.
  { rewrite rfind_app_r; simpl; rewrite (rfind_absent _ _ Hext'); simpl; lia. }
  assert (rfind "/" (stem +:+ String "." ext) = rfind "/" a) as Hs.
  { rewrite rfind_app_l by (simpl; by rewrite (rfind_absent _ _ Hext)).
    unfold stem. apply rfind_app_l. simpl. rewrite (rfind_absent _ _ Hm). simpl.
    destruct (Ascii.eqb_spec c "/"); done. }
  assert (String.length stem = String.length a + S (String.length m)) as Hlen.
  { unfold stem. by rewrite length_append. }
  pose proof (rfind_bounds "/" a) as Hb.
  unfold splitext. rewrite Hd, Hs.
  destruct (Z.ltb_spec (rfind "/" a) (Z.of_nat (String.length stem))); [|lia].
  rewrite Nat2Z.id.
  assert (existsb (not_dot_at (stem +:+ String "." ext))
            (seq (Z.to_nat (rfind "/" a + 1))
               (String.length stem - Z.to_nat (rfind "/" a + 1))) = true) as ->.
  { apply existsb_exists. exists (String.length a). split.
    - apply in_seq. lia.
    - unfold not_dot_at, stem. rewrite append_assoc. unfold_append.
      rewrite get_app_length. by destruct (Ascii.eqb_spec c "."). }
  by rewrite str_take_app, str_drop_app.
Qed.

(** A name whose last component starts with its only dot has no
    extension. *)
Lemma splitext_dotfile (pre ext : string) :
  pre = EmptyString \/ (exists d, pre = d +:+ "/") ->
  contains "/" ext = false ->
  contains "." ext = false ->
  splitext (pre +:+ "." +:+ ext) = (pre +:+ "." +:+ ext, EmptyString).
Proof.
  intros Hpre Hext Hext'.
  assert (rfind "." (pre +:+ String "." ext) = Z.of_nat (String.length pre)) as Hd.
  { rewrite rfind_app_r; simpl; rewrite (rfind_absent _ _ Hext'); simpl; lia. }
  assert (rfind "/" (pre +:+ String "." ext) = (Z.of_nat (String.length pre) - 1)%Z) as Hs.
  { rewrite rfind_app_l by (simpl; by rewrite (rfind_absent _ _ Hext)).
    destruct Hpre as [->|[d ->]]; [done |].
    rewrite rfind_app_r by done. rewrite length_append. simpl. lia. }
  unfold splitext. change ("." +:+ ext) with (String "." ext). rewrite Hd, Hs.
  destruct (Z.ltb_spec (Z.of_nat (String.length pre) - 1) (Z.of_nat (String.length pre)));
    [|lia].
  replace (Z.to_nat (Z.of_nat (String.length pre))
           - Z.to_nat (Z.of_nat (String.length pre) - 1 + 1)) with 0 by lia.
  done.
Qed.

Lemma splitext_no_dot (p : string) :
  contains "." p = false -> splitext p = (p, EmptyString).
Proof.
  intros Hp. unfold splitext. rewrite (rfind_absent _ _ Hp).
  pose proof (rfind_bounds "/" p).
  by destruct (Z.ltb_spec (rfind "/" p) (-1)); [lia |].
Qed.

(** ** Choosing the reader by file extension *)

Section OpenerFacts.

Variable Dataset : Type.
Variable kwargs : Type.
Variable xbpch_open_bpchdataset : string -> kwargs -> outcome Dataset.
Variable xr_open_dataset : string -> kwargs -> outcome Dataset.
Variable xbpch_open_mfbpchdataset : list string -> kwargs -> outcome Dataset.
Variable xr_open_mfdataset : list string -> kwargs -> outcome Dataset.

Lemma splitext_plain (a : string) (c : ascii) (ext : string) :
  c <> "."%char -> c <> "/"%char ->
  contains "/" ext = false -> contains "." ext = false ->
  splitext (a +:+ String c ("." +:+ ext)) = (a +:+ String c EmptyString, "." +:+ ext).
Proof.
  intros Hdot Hsep Hext Hext'.
  by apply (splitext_ext a c EmptyString ext).
Qed.

(** X6: for a file name made of a stem that ends in a character other
    than a dot or a slash, a dot, and an extension without dot or slash,
    [open_dataset] returns what xbpch's reader returns when the extension
    is [bpch], what xarray's reader returns when it is [nc], and raises
    [ValueError] naming the extension in every other case, without
    calling a reader. *)
Theorem open_dataset_by_extension (a : string) (c : ascii) (ext : string) (kw : kwargs) :
  c <> "."%char -> c <> "/"%char ->
  contains "/" ext = false -> contains "." ext = false ->
  open_dataset Dataset kwargs xbpch_open_bpchdataset xr_open_dataset
    (a +:+ String c ("." +:+ ext)) kw
  = if String.eqb ext "bpch" then
      xbpch_open_bpchdataset (a +:+ String c ("." +:+ ext)) kw
    else if String.eqb ext "nc" then
      xr_open_dataset (a +:+ String c ("." +:+ ext)) kw
    else Throw (unknown_extension ("." +:+ ext)).
Proof.
  intros Hdot Hsep Hext Hext'. unfold open_dataset.
  rewrite (splitext_plain a c ext Hdot Hsep Hext Hext').
  change (String.eqb ("." +:+ ext) ".bpch") with (String.eqb (String "." ext) (String "." "bpch")).
  change (String.eqb ("." +:+ ext) ".nc") with (String.eqb (String "." ext) (String "." "nc")).
  simpl String.eqb. done.
Qed.

(** X7: a file name without any dot, and a name whose last component
    starts with its only dot (such as [.nc] or [dir/.bpch]), have no
    extension for [os.path.splitext]: [open_dataset] raises [ValueError]
    and calls no reader. *)
Theorem open_dataset_without_extension (filename : string) (kw : kwargs) :
  contains "." filename = false
  \/ (exists pre ext,
        filename = pre +:+ "." +:+ ext
        /\ (pre = EmptyString \/ exists d, pre = d +:+ "/")
        /\ contains "/" ext = false /\ contains "." ext = false) ->
  open_dataset Dataset kwargs xbpch_open_bpchdataset xr_open_dataset filename kw
  = Throw (unknown_extension EmptyString).
Proof.
  intros [H | (pre & ext & -> & Hpre & Hext & Hext')]; unfold open_dataset.
  - by rewrite (splitext_no_dot _ H).
  - by rewrite (splitext_dotfile pre ext Hpre Hext Hext').
Qed.

(** X8: [open_mfdataset] raises [ValueError] on an empty list, and
    otherwise looks at the first name only: when that name has a proper
    extension, the whole list goes to xbpch's multi-file reader for
    [bpch], to xarray's for [nc], whatever the other names are, and to
    no reader for any other extension. *)
Theorem open_mfdataset_first_name_decides
    (a : string) (c : ascii) (ext : string) (others : list string) (kw : kwargs) :
  c <> "."%char -> c <> "/"%char ->
  contains "/" ext = false -> contains "." ext = false ->
  open_mfdataset Dataset kwargs xbpch_open_mfbpchdataset xr_open_mfdataset [] kw
  = Throw (ValueError "Must pass a list with at least one filename")
  /\ open_mfdataset Dataset kwargs xbpch_open_mfbpchdataset xr_open_mfdataset
       ((a +:+ String c ("." +:+ ext)) :: others) kw
     = if String.eqb ext "bpch" then
         xbpch_open_mfbpchdataset ((a +:+ String c ("." +:+ ext)) :: others) kw
       else if String.eqb ext "nc" then
         xr_open_mfdataset ((a +:+ String c ("." +:+ ext)) :: others) kw
       else Throw (unknown_extension ("." +:+ ext)).
Proof.
  intros Hdot Hsep Hext Hext'. split; [done |]. unfold open_mfdataset.
  rewrite (splitext_plain a c ext Hdot Hsep Hext Hext').
  change (String.eqb ("." +:+ ext) ".bpch") with (String.eqb (String "." ext) (String "." "bpch")).
  change (String.eqb ("." +:+ ext) ".nc") with (String.eqb (String "." ext) (String "." "nc")).
  simpl String.eqb. done.
Qed.

(** X9: for every collection other than [Emissions] the path built by
    [get_gcc_filepath] has the extension [.nc4], so [open_dataset]
    raises [ValueError] on it, whatever the directory, day and time. *)
Theorem open_dataset_rejects_collection_files
    (outputdir collection day time : string) (kw : kwargs) :
  collection <> "Emissions" ->
  (splitext (get_gcc_filepath outputdir collection day time)).2 = ".nc4"
  /\ open_dataset Dataset kwargs xbpch_open_bpchdataset xr_open_dataset
       (get_gcc_filepath outputdir collection day time) kw
     = Throw (unknown_extension ".nc4").
Proof.
  intros Hc. unfold get_gcc_filepath.
  apply String.eqb_neq in Hc. rewrite Hc.
  set (body := "GEOSChem." +:+ collection +:+ "." +:+ day +:+ "_" +:+ time).
  assert (exists pre,
            path_join outputdir
              ("GEOSChem." +:+ collection +:+ "." +:+ day +:+ "_" +:+ time +:+ "z.nc4")
            = (pre +:+ body) +:+ String "z" ("." +:+ "nc4")) as [pre ->].
  { unfold path_join.
    change (String.prefix "/" ("GEOSChem." +:+ collection +:+ "." +:+ day +:+ "_"
                               +:+ time +:+ "z.nc4")) with false.
    destruct (String.eqb outputdir "" || endswith "/" outputdir).
    - exists outputdir. unfold body. by rewrite !append_assoc.
    - exists (outputdir +:+ "/"). unfold body. by rewrite !append_assoc. }
  assert (splitext ((pre +:+ body) +:+ String "z" ("." +:+ "nc4"))
          = ((pre +:+ body) +:+ String "z" EmptyString, "." +:+ "nc4")) as Hs
    by (by apply splitext_plain).
  split.
  - by rewrite Hs.
  - unfold open_dataset. by rewrite Hs.
Qed.

(** X10: for the collection [Emissions], when neither [day] nor [time]
    holds a slash, the path built by [get_gcc_filepath] has the extension
    [.nc] and [open_dataset] hands it to xarray's reader. *)
Theorem open_dataset_reads_emissions_files (outputdir day time : string) (kw : kwargs) :
  contains "/" day = false -> contains "/" time = false ->
  open_dataset Dataset kwargs xbpch_open_bpchdataset xr_open_dataset
    (get_gcc_filepath outputdir "Emissions" day time) kw
  = xr_open_dataset (get_gcc_filepath outputdir "Emissions" day time) kw.
Proof.
  intros Hday Htime. unfold get_gcc_filepath. simpl String.eqb. cbv iota.
  set (m := "EMCO_diagnostics." +:+ day +:+ time).
  assert (exists pre,
            path_join outputdir ("HEMCO_diagnostics." +:+ day +:+ time +:+ ".nc")
            = pre +:+ String "H" m +:+ "." +:+ "nc") as [pre Hp].
  { unfold path_join.
    change (String.prefix "/" ("HEMCO_diagnostics." +:+ day +:+ time +:+ ".nc"))
      with false.
    assert ("HEMCO_diagnostics." +:+ day +:+ time +:+ ".nc"
            = String "H" m +:+ "." +:+ "nc") as ->.
    { unfold m. unfold_append. by rewrite !append_assoc. }
    destruct (String.eqb outputdir "" || endswith "/" outputdir).
    - by exists outputdir.
    - exists (outputdir +:+ "/"). by rewrite !append_assoc. }
  rewrite Hp.
  assert (contains "/" m = false) as Hm.
  { unfold m. by rewrite !contains_char_app, Hday, Htime. }
  unfold open_dataset.
  by rewrite (splitext_ext pre "H" m "nc").
Qed.

End OpenerFacts.

Lemma open_dataset_by_extension_witness :
  open_dataset (string * string) unit
    (fun f _ => Return ("xbpch", f)) (fun f _ => Return ("xarray", f))
    "my_GEOS-Chem_run.bpch" tt
  = Return ("xbpch", "my_GEOS-Chem_run.bpch")
  /\ open_dataset (string * string) unit
       (fun f _ => Return ("xbpch", f)) (fun f _ => Return ("xarray", f))
       "my_GCHP_data.nc4" tt
     = Throw (unknown_extension ".nc4").
Proof.
  split.
  - apply (open_dataset_by_extension (string * string) unit
             (fun f _ => Return ("xbpch", f)) (fun f _ => Return ("xarray", f))
             "my_GEOS-Chem_ru" "n" "bpch" tt); done.
  - apply (open_dataset_by_extension (string * string) unit
             (fun f _ => Return ("xbpch", f)) (fun f _ => Return ("xarray", f))
             "my_GCHP_dat" "a" "nc4" tt); done.
Defined.

Lemma open_dataset_without_extension_witness :
  open_dataset (string * string) unit
    (fun f _ => Return ("xbpch", f)) (fun f _ => Return ("xarray", f))
    "run/output" tt
  = Throw (unknown_extension EmptyString)
  /\ open_dataset (string * string) unit
       (fun f _ => Return ("xbpch", f)) (fun f _ => Return ("xarray", f))
       "run/.nc" tt
     = Throw (unknown_extension EmptyString).
Proof.
  split.
  - apply (open_dataset_without_extension (string * string) unit
             (fun f _ => Return ("xbpch", f)) (fun f _ => Return ("xarray", f))
             "run/output" tt).
    left. reflexivity.
  - apply (open_dataset_without_extension (string * string) unit
             (fun f _ => Return ("xbpch", f)) (fun f _ => Return ("xarray", f))
             "run/.nc" tt).
    right. exists "run/", "nc". split; [reflexivity |].
    split; [right; by exists "run" |]. split; reflexivity.
Defined.

Lemma open_mfdataset_first_name_decides_witness :
  open_mfdataset (string * list string) unit
    (fun l _ => Return ("xbpch", l)) (fun l _ => Return ("xarray", l)) [] tt
  = Throw (ValueError "Must pass a list with at least one filename")
  /\ open_mfdataset (string * list string) unit
       (fun l _ => Return ("xbpch", l)) (fun l _ => Return ("xarray", l))
       ["day1.nc"; "day2.bpch"] tt
     = Return ("xarray", ["day1.nc"; "day2.bpch"]).
Proof.
  apply (open_mfdataset_first_name_decides (string * list string) unit
           (fun l _ => Return ("xbpch", l)) (fun l _ => Return ("xarray", l))
           "day" "1" "nc" ["day2.bpch"] tt); done.
Defined.

Lemma open_dataset_rejects_collection_files_witness :
  (splitext (get_gcc_filepath "/out" "SpeciesConc" "20160701" "0000")).2 = ".nc4"
  /\ open_dataset (string * string) unit
       (fun f _ => Return ("xbpch", f)) (fun f _ => Return ("xarray", f))
       (get_gcc_filepath "/out" "SpeciesConc" "20160701" "0000") tt
     = Throw (unknown_extension ".nc4").
Proof.
  apply (open_dataset_rejects_collection_files (string * string) unit
           (fun f _ => Return ("xbpch", f)) (fun f _ => Return ("xarray", f))
           "/out" "SpeciesConc" "20160701" "0000" tt).
  discriminate.
Defined.

Lemma open_dataset_reads_emissions_files_witness :
  open_dataset (string * string) unit
    (fun f _ => Return ("xbpch", f)) (fun f _ => Return ("xarray", f))
    (get_gcc_filepath "/out/" "Emissions" "20160701" "0000") tt
  = Return ("xarray", "/out/HEMCO_diagnostics.201607010000.nc").
Proof.
  apply (open_dataset_reads_emissions_files (string * string) unit
           (fun f _ => Return ("xbpch", f)) (fun f _ => Return ("xarray", f))
           "/out/" "20160701" "0000" tt); reflexivity.
Defined.

(** ** Comparing the variables of two data sets *)

Lemma getitem_keys {A : Type} (d : list (string * A)) (v : string) :
  v ∈ keys d -> exists x, getitem d v = Return x.
Proof.
  unfold keys. induction d as [|[k x] d IH]; simpl.
  - by intros ?%elem_of_nil.
  - intros [->|Hv]%elem_of_cons.
    + exists x. by rewrite String.eqb_refl.
    + destruct (String.eqb k v); [by exists x | by apply IH].
Qed.

Lemma getitem_Return_keys {A : Type} (d : list (string * A)) (v : string) (x : A) :
  getitem d v = Return x -> v ∈ keys d.
Proof.
  unfold keys. induction d as [|[k y] d IH]; simpl; [done |].
  destruct (String.eqb_spec k v) as [->|Hne].
  - intros _. apply elem_of_cons. by left.
  - intros H. apply elem_of_cons. right. by apply IH.
Qed.

Lemma select_filter (p : string -> outcome bool) (t : string -> bool) (l : list string) :
  (forall v, v ∈ l -> p v = Return (t v)) ->
  select p l = Return (List.filter t l).
Proof.
  induction l as [|v l IH]; intros Hp; [done |].
  simpl. rewrite (Hp v) by (apply elem_of_cons; by left). simpl.
  rewrite IH by (intros w Hw; apply Hp, elem_of_cons; by right). simpl.
  by destruct (t v).
Qed.

Lemma elem_of_filter_bool (t : string -> bool) (l : list string) (v : string) :
  v ∈ List.filter t l <-> v ∈ l /\ t v = true.
Proof. rewrite !list_elem_of_In. apply filter_In. Qed.

Lemma elem_of_commonvars (refvars devvars : list string) (v : string) :
  v ∈ commonvars refvars devvars <-> v ∈ refvars /\ v ∈ devvars.
Proof.
  unfold commonvars. rewrite merge_sort_Permutation, elem_of_elements.
  by rewrite elem_of_intersection, !elem_of_list_to_set.
Qed.

(** X11: [commonvars] holds exactly the names present in both data sets,
    each once, in ascending order of the string comparison, whatever the
    order of the variables in the two data sets. *)
Theorem commonvars_sorted_intersection (refvars devvars : list string) :
  StronglySorted String.le (commonvars refvars devvars)
  /\ NoDup (commonvars refvars devvars)
  /\ (forall v, v ∈ commonvars refvars devvars <-> v ∈ refvars /\ v ∈ devvars)
  /\ commonvars refvars devvars = commonvars devvars refvars.
Proof.
  split; [apply StronglySorted_merge_sort; apply _ |].
  split.
  { unfold commonvars. rewrite merge_sort_Permutation. apply NoDup_elements. }
  split; [apply elem_of_commonvars |].
  unfold commonvars. f_equal. f_equal. apply (comm_L (∩)).
Qed.

Lemma elem_of_only_in (a b : list string) (v : string) :
  v ∈ only_in a b <-> v ∈ a /\ v ∉ b.
Proof.
  unfold only_in. rewrite elem_of_filter_bool, negb_true_iff.
  split; intros [Ha Hb]; (split; [done |]).
  - intros Hin%in_list_true. congruence.
  - destruct (in_list v b) eqn:E; [|done]. by apply in_list_true in E.
Qed.

(** X12: [refonly] (and, with the arguments swapped, [devonly]) keeps
    the names of one data set that the other lacks, in their original
    order; every name of a data set is either in [commonvars] or in its
    own [only] list, never in both. *)
Theorem only_in_complements_commonvars (a b : list string) :
  sublist (only_in a b) a
  /\ (forall v, v ∈ only_in a b <-> v ∈ a /\ v ∉ b)
  /\ (forall v, v ∈ a <-> v ∈ commonvars a b \/ v ∈ only_in a b)
  /\ (forall v, ~ (v ∈ commonvars a b /\ v ∈ only_in a b)).
Proof.
  split.
  { unfold only_in. induction a as [|x a IH]; simpl; [done |].
    destruct (negb (in_list x b)); by constructor. }
  split; [apply elem_of_only_in |].
  split.
  - intros v. rewrite elem_of_commonvars, elem_of_only_in.
    destruct (decide (v ∈ b)); tauto.
  - intros v. rewrite elem_of_commonvars, elem_of_only_in. tauto.
Qed.

(** The test of a bucket, read off the data set. *)
Lemma select_ndim (d : list (string * nat)) (n : nat) (l : list string) :
  (forall v, v ∈ l -> v ∈ keys d) ->
  exists c,
    select (fun v => r ← getitem d v; Return (Nat.eqb r n)) l = Return c
    /\ sublist c l
    /\ forall v, v ∈ c <-> v ∈ l /\ getitem d v = Return n.
Proof.
  intros Hl.
  set (t := fun v => match getitem d v with
                     | Return r => Nat.eqb r n
                     | Throw _ => false
                     end).
  exists (List.filter t l). split; [|split].
  - apply select_filter. intros v Hv.
    destruct (getitem_keys d v (Hl v Hv)) as [x Hx]. unfold t. by rewrite Hx.
  - clear. induction l as [|x l IH]; simpl; [done |]. destruct (t x); by constructor.
  - intros v. rewrite elem_of_filter_bool. unfold t.
    split; intros [Hv Ht]; (split; [done |]).
    + destruct (getitem d v) as [r|]; [|done]. by apply Nat.eqb_eq in Ht as ->.
    + rewrite Ht. apply Nat.eqb_refl.
Qed.

Lemma dimmismatch_returns (refdata devdata : list (string * nat)) :
  exists l,
    dimmismatch refdata devdata = Return l
    /\ forall v, v ∈ l <->
         v ∈ commonvars (keys refdata) (keys devdata)
         /\ exists r d, getitem refdata v = Return r /\ getitem devdata v = Return d
                        /\ r <> d.
Proof.
  set (t := fun v => match getitem refdata v, getitem devdata v with
                     | Return r, Return d => negb (Nat.eqb r d)
                     | _, _ => false
                     end).
  exists (List.filter t (commonvars (keys refdata) (keys devdata))). split.
  - apply select_filter. intros v [Hr Hd]%elem_of_commonvars.
    destruct (getitem_keys _ _ Hr) as [r Hr'], (getitem_keys _ _ Hd) as [d Hd'].
    unfold t. by rewrite Hr', Hd'.
  - intros v. rewrite elem_of_filter_bool. unfold t. split.
    + intros [Hv Ht]. split; [done |].
      destruct (getitem refdata v) as [r|]; [|done].
      destruct (getitem devdata v) as [d|]; [|done].
      exists r, d. do 2 (split; [done |]).
      apply negb_true_iff in Ht. by apply Nat.eqb_neq.
    + intros [Hv (r & d & -> & -> & Hne)]. split; [done |].
      apply negb_true_iff. by apply Nat.eqb_neq.
Qed.

(** X13: [compare_varnames] never raises [KeyError], whatever the two
    data sets hold.  Its first list is [commonvars]; the other three are
    sublists of it, chosen by [ndim]: the second keeps the names whose
    array has [ndim] 2 in the first data set, the third those with [ndim]
    3 in the first data set, the fourth those with [ndim] 4 in the second
    data set. *)
Theorem compare_varnames_buckets (refdata devdata : list (string * nat)) :
  exists c1 c2 c3,
    compare_varnames refdata devdata
    = Return [commonvars (keys refdata) (keys devdata); c1; c2; c3]
    /\ sublist c1 (commonvars (keys refdata) (keys devdata))
    /\ sublist c2 (commonvars (keys refdata) (keys devdata))
    /\ sublist c3 (commonvars (keys refdata) (keys devdata))
    /\ (forall v, v ∈ c1 <->
          v ∈ commonvars (keys refdata) (keys devdata) /\ getitem refdata v = Return 2)
    /\ (forall v, v ∈ c2 <->
          v ∈ commonvars (keys refdata) (keys devdata) /\ getitem refdata v = Return 3)
    /\ (forall v, v ∈ c3 <->
          v ∈ commonvars (keys refdata) (keys devdata) /\ getitem devdata v = Return 4).
Proof.
  set (cv := commonvars (keys refdata) (keys devdata)).
  assert (forall v, v ∈ cv -> v ∈ keys refdata) as Hr
    by (intros v Hv; by apply elem_of_commonvars in Hv as [? ?]).
  assert (forall v, v ∈ cv -> v ∈ keys devdata) as Hd
    by (intros v Hv; by apply elem_of_commonvars in Hv as [? ?]).
  destruct (dimmismatch_returns refdata devdata) as (l & Hl & _).
  destruct (select_ndim refdata 2 cv Hr) as (c1 & H1 & S1 & M1).
  destruct (select_ndim refdata 3 cv Hr) as (c2 & H2 & S2 & M2).
  destruct (select_ndim devdata 4 cv Hd) as (c3 & H3 & S3 & M3).
  exists c1, c2, c3. split; [|done].
  unfold compare_varnames. rewrite Hl. fold cv. simpl.
  rewrite H1. simpl. rewrite H2. simpl. by rewrite H3.
Qed.

Lemma compare_varnames_returns (refdata devdata : list (string * nat)) :
  exists c1 c2 c3,
    compare_varnames refdata devdata
    = Return [commonvars (keys refdata) (keys devdata); c1; c2; c3]
    /\ (forall v, v ∈ c1 <->
          v ∈ commonvars (keys refdata) (keys devdata) /\ getitem refdata v = Return 2)
    /\ (forall v, v ∈ c2 <->
          v ∈ commonvars (keys refdata) (keys devdata) /\ getitem refdata v = Return 3)
    /\ (forall v, v ∈ c3 <->
          v ∈ commonvars (keys refdata) (keys devdata) /\ getitem devdata v = Return 4).
Proof.
  set (cv := commonvars (keys refdata) (keys devdata)).
  assert (forall v, v ∈ cv -> v ∈ keys refdata) as Hr
    by (intros v Hv; by apply elem_of_commonvars in Hv as [? ?]).
  assert (forall v, v ∈ cv -> v ∈ keys devdata) as Hd
    by (intros v Hv; by apply elem_of_commonvars in Hv as [? ?]).
  destruct (dimmismatch_returns refdata devdata) as (l & Hl & _).
  destruct (select_ndim refdata 2 cv Hr) as (c1 & H1 & _ & M1).
  destruct (select_ndim refdata 3 cv Hr) as (c2 & H2 & _ & M2).
  destruct (select_ndim devdata 4 cv Hd) as (c3 & H3 & _ & M3).
  exists c1, c2, c3. split; [|done].
  unfold compare_varnames. rewrite Hl. fold cv. simpl.
  rewrite H1. simpl. rewrite H2. simpl. by rewrite H3.
Qed.

(** X14: the second and third list are always disjoint.  The fourth is
    chosen from the other data set, so a name with [ndim] 2 in the first
    data set and 4 in the second is in the second and in the fourth list;
    when no common variable has different [ndim] in the two data sets
    ([dimmismatch] is empty) the three lists are disjoint. *)
Theorem compare_varnames_bucket_overlap
    (refdata devdata : list (string * nat)) (cv c1 c2 c3 : list string) :
  compare_varnames refdata devdata = Return [cv; c1; c2; c3] ->
  (forall v, ~ (v ∈ c1 /\ v ∈ c2))
  /\ (forall v, v ∈ cv -> getitem refdata v = Return 2 ->
                getitem devdata v = Return 4 -> v ∈ c1 /\ v ∈ c3)
  /\ (dimmismatch refdata devdata = Return [] ->
      forall v, v ∈ c3 -> (v ∉ c1) /\ (v ∉ c2)).
Proof.
  intros Hc.
  destruct (compare_varnames_returns refdata devdata)
    as (c1' & c2' & c3' & Hc' & M1 & M2 & M3).
  rewrite Hc' in Hc. injection Hc as <- <- <- <-.
  split; [|split].
  - intros v [H1%M1 H2%M2]. destruct H1 as [_ H1], H2 as [_ H2]. congruence.
  - intros v Hv Hr Hd. split; [by apply M1 | by apply M3].
  - intros Hdm v [Hv Hd]%M3.
    destruct (dimmismatch_returns refdata devdata) as (l & Hl & Ml).
    rewrite Hl in Hdm. injection Hdm as ->.
    pose proof (proj1 (elem_of_commonvars _ _ v) Hv) as [Hkr _].
    destruct (getitem_keys _ _ Hkr) as [r Hr].
    destruct (decide (r = 4)) as [->|Hne].
    + split; [intros [_ H]%M1 | intros [_ H]%M2]; congruence.
    + exfalso. apply (elem_of_nil v). apply Ml. split; [done |]. by exists r, 4.
Qed.

Lemma compare_varnames_bucket_overlap_witness :
  compare_varnames [("T", 2); ("U", 3)] [("U", 3); ("T", 4)]
  = Return [["T"; "U"]; ["T"]; ["U"]; ["T"]]
  /\ "T" ∈ ["T"] /\ "T" ∈ ["T"].
Proof.
  assert (compare_varnames [("T", 2); ("U", 3)] [("U", 3); ("T", 4)]
          = Return [["T"; "U"]; ["T"]; ["U"]; ["T"]]) as H by (by vm_compute).
  split; [exact H |].
  apply (proj1 (proj2 (compare_varnames_bucket_overlap
                         [("T", 2); ("U", 3)] [("U", 3); ("T", 4)]
                         ["T"; "U"] ["T"] ["U"] ["T"] H)) "T").
  - apply elem_of_cons. by left.
  - reflexivity.
  - reflexivity.
Defined.

(** ** Adding a species as a weighted sum *)

Lemma getitem_missing {A : Type} (d : list (string * A)) (v : string) :
  v ∉ keys d -> getitem d v = Throw (KeyError v).
Proof.
  unfold keys. induction d as [|[k x] d IH]; simpl; [done |].
  intros [Hne Hv]%not_elem_of_cons.
  destruct (String.eqb_spec k v) as [->|_]; [done | by apply IH].
Qed.

Section AddSpeciesFacts.

Variable DataArray : Type.
Variable Coef : Type.
Variable mul : DataArray -> Coef -> DataArray.
Variable add : DataArray -> DataArray -> DataArray.
Variable xr_merge :
  list (string * DataArray) -> string -> string -> DataArray
  -> outcome (list (string * DataArray)).

(** X15: when the data set already has a variable called [varname] the
    function never returns a data set: with [overwrite] it stops at
    [ds.drop(key)] with [NameError], since [key] is not bound, and
    without [overwrite] the assertion fails. *)
Theorem add_species_existing_name_raises
    (ds : list (string * DataArray)) (varname : string)
    (varlist : list (string * Coef)) (units : string) (overwrite : bool) :
  varname ∈ keys ds ->
  add_species_to_dataset DataArray Coef mul add xr_merge ds varname varlist units overwrite
  = Throw (if overwrite then Builtin NameError
           else AssertionError (varname +:+ " already in dataset!")).
Proof.
  intros Hv%in_list_true. unfold add_species_to_dataset. rewrite Hv.
  by destruct overwrite.
Qed.

Lemma item_app_length {A : Type} (pre : list A) (t : A) (suf : list A) :
  item (length pre) (pre ++ t :: suf) = Return t.
Proof. unfold item. by rewrite list_lookup_middle. Qed.

Lemma add_terms_sum (ds : list (string * DataArray))
    (pre suf : list (string * Coef)) (arrs : list DataArray) (darr : DataArray) :
  pre <> [] ->
  Forall2 (fun t a => getitem ds t.1 = Return a) suf arrs ->
  add_terms DataArray Coef mul add ds (pre ++ suf) darr (seq (length pre) (length suf))
  = Return (foldl add darr (zip_with mul arrs suf.*2)).
Proof.
  intros Hpre HF. revert pre darr Hpre.
  induction HF as [|t a suf arrs Ht HF IH]; intros pre darr Hpre; [done |].
  cbn [length seq add_terms]. unfold add_term.
  destruct (Nat.eqb_spec (length pre) 0) as [Hz|_];
    [by destruct pre |].
  rewrite item_app_length. simpl. rewrite Ht. simpl.
  replace (pre ++ t :: suf) with ((pre ++ [t]) ++ suf) by (by rewrite <- app_assoc).
  replace (S (length pre)) with (length (pre ++ [t])) by (rewrite length_app; simpl; lia).
  rewrite IH; [done | by destruct pre].
Qed.

Lemma add_terms_missing (ds : list (string * DataArray))
    (pre mid : list (string * Coef)) (t : string * Coef) (suf : list (string * Coef))
    (darr : DataArray) :
  pre <> [] ->
  (forall u, u ∈ mid -> u.1 ∈ keys ds) ->
  t.1 ∉ keys ds ->
  add_terms DataArray Coef mul add ds (pre ++ mid ++ t :: suf) darr
    (seq (length pre) (length (mid ++ t :: suf)))
  = Throw (KeyError t.1).
Proof.
  intros Hpre Hmid Ht. revert pre darr Hpre.
  induction mid as [|u mid IH]; intros pre darr Hpre.
  - cbn [app length seq add_terms]. unfold add_term.
    destruct (Nat.eqb_spec (length pre) 0) as [Hz|_]; [by destruct pre |].
    rewrite item_app_length. simpl. by rewrite (getitem_missing _ _ Ht).
  - cbn [app length seq add_terms]. unfold add_term.
    destruct (Nat.eqb_spec (length pre) 0) as [Hz|_]; [by destruct pre |].
    rewrite item_app_length. simpl.
    destruct (getitem_keys ds u.1) as [a ->];
      [apply Hmid, elem_of_cons; by left |].
    simpl.
    replace (pre ++ u :: mid ++ t :: suf) with ((pre ++ [u]) ++ mid ++ t :: suf)
      by (by rewrite <- app_assoc).
    replace (S (length pre)) with (length (pre ++ [u])) by (rewrite length_app; simpl; lia).
    apply IH; [|by destruct pre].
    intros w Hw. apply Hmid, elem_of_cons. by right.
Qed.

(** X16: when [varname] is new and every name of [varlist] is in the
    data set, the array handed to [xr.merge] is the sum, taken from left
    to right, of each listed array times its factor: the first term is
    counted once although the loop starts again at index 0. *)
Theorem add_species_weighted_sum
    (ds : list (string * DataArray)) (varname : string)
    (t0 : string * Coef) (rest : list (string * Coef)) (units : string)
    (overwrite : bool) :
  varname ∉ keys ds ->
  (forall t, t ∈ t0 :: rest -> t.1 ∈ keys ds) ->
  exists (a0 : DataArray) (arrs : list DataArray),
    getitem ds t0.1 = Return a0
    /\ Forall2 (fun t a => getitem ds t.1 = Return a) rest arrs
    /\ add_species_to_dataset DataArray Coef mul add xr_merge
         ds varname (t0 :: rest) units overwrite
       = xr_merge ds varname units
           (foldl add (mul a0 t0.2) (zip_with mul arrs rest.*2)).
Proof.
  intros Hnew Hall.
  destruct (getitem_keys ds t0.1) as [a0 Ha0]; [apply Hall, elem_of_cons; by left |].
  assert (exists arrs, Forall2 (fun t a => getitem ds t.1 = Return a) rest arrs)
    as [arrs Harrs].
  { assert (forall t, t ∈ rest -> t.1 ∈ keys ds) as Hrest
      by (intros t Ht; apply Hall, elem_of_cons; by right).
    clear -Hrest. induction rest as [|t rest IH].
    - by exists [].
    - destruct (getitem_keys ds t.1) as [a Ha]; [apply Hrest, elem_of_cons; by left |].
      destruct IH as [arrs Harrs];
        [intros u Hu; apply Hrest, elem_of_cons; by right |].
      exists (a :: arrs). by constructor. }
  exists a0, arrs. do 2 (split; [done |]).
  unfold add_species_to_dataset.
  assert (in_list varname (keys ds) = false) as ->.
  { destruct (in_list varname (keys ds)) eqn:E; [|done]. by apply in_list_true in E. }
  simpl. rewrite Ha0. simpl.
  by rewrite (add_terms_sum ds [t0] rest arrs _ ltac:(done) Harrs).
Qed.

(** X17: when [varname] is new, an empty [varlist] raises [IndexError],
    and a [varlist] with a name that the data set lacks raises
    [KeyError] for the first such name; [xr.merge] is not reached. *)
Theorem add_species_missing_term
    (ds : list (string * DataArray)) (varname : string)
    (present : list (string * Coef)) (t : string * Coef) (later : list (string * Coef))
    (units : string) (overwrite : bool) :
  varname ∉ keys ds ->
  (forall u, u ∈ present -> u.1 ∈ keys ds) ->
  t.1 ∉ keys ds ->
  add_species_to_dataset DataArray Coef mul add xr_merge ds varname [] units overwrite
  = Throw (Builtin IndexError)
  /\ add_species_to_dataset DataArray Coef mul add xr_merge
       ds varname (present ++ t :: later) units overwrite
     = Throw (KeyError t.1).
Proof.
  intros Hnew Hpresent Ht.
  assert (in_list varname (keys ds) = false) as Hin.
  { destruct (in_list varname (keys ds)) eqn:E; [|done]. by apply in_list_true in E. }
  unfold add_species_to_dataset. rewrite Hin. simpl. split; [done |].
  destruct present as [|t0 present]; simpl.
  - by rewrite (getitem_missing _ _ Ht).
  - destruct (getitem_keys ds t0.1) as [a0 ->]; [apply Hpresent, elem_of_cons; by left |].
    simpl.
    rewrite (add_terms_missing ds [t0] present t later); [done | done | | done].
    intros u Hu. apply Hpresent, elem_of_cons. by right.
Qed.

End AddSpeciesFacts.

Lemma add_species_existing_name_raises_witness :
  add_species_to_dataset nat nat Nat.mul Nat.add
    (fun ds n u d => Return (ds ++ [(n, d)]))
    [("NO", 2); ("NO2", 3)] "NO2" [("NO", 1); ("NO2", 1)] "ppb" true
  = Throw (Builtin NameError).
Proof.
  apply (add_species_existing_name_raises nat nat Nat.mul Nat.add
           (fun ds n u d => Return (ds ++ [(n, d)]))
           [("NO", 2); ("NO2", 3)] "NO2" [("NO", 1); ("NO2", 1)] "ppb" true).
  apply elem_of_cons. right. apply elem_of_cons. by left.
Defined.

Lemma add_species_weighted_sum_witness :
  exists (a0 : nat) (arrs : list nat),
    getitem [("NO", 2); ("NO2", 3)] "NO" = Return a0
    /\ Forall2 (fun t a => getitem [("NO", 2); ("NO2", 3)] t.1 = Return a)
         [("NO2", 100)] arrs
    /\ add_species_to_dataset nat nat Nat.mul Nat.add
         (fun ds n u d => Return (ds ++ [(n, d)]))
         [("NO", 2); ("NO2", 3)] "NOx" [("NO", 10); ("NO2", 100)] "ppb" false
       = Return ([("NO", 2); ("NO2", 3)]
                 ++ [("NOx", foldl Nat.add (a0 * 10) (zip_with Nat.mul arrs [100]))]).
Proof.
  apply (add_species_weighted_sum nat nat Nat.mul Nat.add
           (fun ds n u d => Return (ds ++ [(n, d)]))
           [("NO", 2); ("NO2", 3)] "NOx" ("NO", 10) [("NO2", 100)] "ppb" false).
  - intros H. repeat (apply elem_of_cons in H as [[=]|H]). by apply elem_of_nil in H.
  - intros t Ht.
    repeat (apply elem_of_cons in Ht as [->|Ht];
            [simpl; rewrite !elem_of_cons; tauto |]).
    by apply elem_of_nil in Ht.
Defined.

Lemma add_species_missing_term_witness :
  add_species_to_dataset nat nat Nat.mul Nat.add
    (fun ds n u d => Return (ds ++ [(n, d)]))
    [("NO", 2); ("NO2", 3)] "NOy" [] "ppb" false
  = Throw (Builtin IndexError)
  /\ add_species_to_dataset nat nat Nat.mul Nat.add
       (fun ds n u d => Return (ds ++ [(n, d)]))
       [("NO", 2); ("NO2", 3)] "NOy" ([("NO", 1)] ++ ("HNO3", 1) :: [("NO2", 1)])
       "ppb" false
     = Throw (KeyError "HNO3").
Proof.
  apply (add_species_missing_term nat nat Nat.mul Nat.add
           (fun ds n u d => Return (ds ++ [(n, d)]))
           [("NO", 2); ("NO2", 3)] "NOy" [("NO", 1)] ("HNO3", 1) [("NO2", 1)]
           "ppb" false).
  - intros H. repeat (apply elem_of_cons in H as [[=]|H]). by apply elem_of_nil in H.
  - intros u Hu. apply elem_of_cons in Hu as [->|Hu]; [|by apply elem_of_nil in Hu].
    simpl. apply elem_of_cons. by left.
  - intros H. repeat (apply elem_of_cons in H as [[=]|H]). by apply elem_of_nil in H.
Defined.
